(** * mcp-azure-devops: the search and read tools

    A shallow embedding of [main.go]: the two operations
    [searchRepository] and [getFileContent] of [AzureDevOpsClient] and the
    two tool handlers registered in [main], together with the parts of the
    Go libraries they touch (the request and response structs of the Azure
    DevOps client, [strings.EqualFold], [encoding/json], [fmt.Errorf],
    [log.Printf]).

    Conventions.
    - A Go pointer [*T] is an [option T]; [None] is [nil].  Dereferencing
      [nil] panics.
    - A Go [map[string]T] is a [gmap string T].
    - A Go function runs in the monad [go]: it yields a value or panics, and
      leaves a trace of the upstream requests it issued and of the lines it
      logged, in program order.
    - A Go result pair [(v, err)] is a Rocq pair whose second component is an
      [option error]. *)

From Stdlib Require Import ZArith NArith Ascii String DecimalString.
From stdpp Require Import base option list strings gmap fin_maps sorting.

Open Scope string_scope.
Open Scope list_scope.
Open Scope Z_scope.

(** ** Go values *)

(** The [error] interface.  [fmt.Errorf] without [%w] builds an
    [errorString]; with [%w] it builds a [wrapError] that keeps the wrapped
    error.  Errors of the upstream client are values of this type too: only
    their [Error()] text is ever observed. *)
Inductive error : Type :=
| errorString (s : string)
| wrapError (msg : string) (err : error).

Definition Error (e : error) : string :=
  match e with
  | errorString s => s
  | wrapError msg _ => msg
  end.

(** [fmt.Errorf(prefix + "%s", s)] and [fmt.Errorf(prefix + "%w", err)]. *)
Definition Errorf_s (prefix s : string) : error := errorString (prefix +:+ s).
Definition Errorf_w (prefix : string) (err : error) : error :=
  wrapError (prefix +:+ Error err) err.

(** A value of type [interface{}], as [encoding/json] decodes tool
    arguments: nil, bool, float64 (kept as its 64-bit pattern, never
    inspected here), string, slice, map. *)
#[warnings="-register-all"]
Inductive value : Type :=
| VNil
| VBool (b : bool)
| VFloat64 (bits : Z)
| VString (s : string)
| VSlice (vs : list value)
| VMap (kvs : list (string * value)).

(** The comma-ok type assertion [v.(string)]. *)
Definition assert_string (v : value) : string * bool :=
  match v with
  | VString s => (s, true)
  | _ => ("", false)
  end.

(** Indexing a Go map: an absent key reads as the zero value, which for
    [interface{}] is nil. *)
Definition index (m : gmap string value) (k : string) : value :=
  default VNil (m !! k).

(** ** Structs of the Azure DevOps client library *)

Module SortOption.
Record t : Type := mk { Field : option string; SortOrder : option string }.
End SortOption.

Module CodeSearchRequest.
Record t : Type := mk {
  Filters : option (gmap string (list string));
  SearchText : option string;
  OrderBy : option (list SortOption.t);
  Skip : option Z;
  Top : option Z;
  IncludeFacets : option bool;
  IncludeSnippet : option bool
}.
End CodeSearchRequest.

Module FetchCodeSearchResultsArgs.
Record t : Type := mk {
  Request : option CodeSearchRequest.t;
  Project : option string
}.
End FetchCodeSearchResultsArgs.

(** [search.Repository] and [search.Project]: only [Name] is read. *)
Module Repository.
Record t : Type := mk { Id : option string; Name : option string }.
End Repository.

Module Project.
Record t : Type := mk { Name : option string }.
End Project.

(** [search.CodeResult], one upstream hit.  The fields [searchRepository]
    never reads (collection, content id, matches, versions) are left out. *)
Module CodeResult.
Record t : Type := mk {
  FileName : option string;
  Path : option string;
  Project : option Project.t;
  Repository : option Repository.t
}.
End CodeResult.

Module CodeSearchResponse.
Record t : Type := mk {
  Count : option Z;
  Results : option (list CodeResult.t)
}.
End CodeSearchResponse.

Module GetRepositoriesArgs.
Record t : Type := mk {
  Project : option string;
  IncludeLinks : option bool;
  IncludeAllUrls : option bool;
  IncludeHidden : option bool
}.
End GetRepositoriesArgs.

(** [git.GitRepository]: [Id] is a [*uuid.UUID]. *)
Module GitRepository.
Record t (UUID : Type) : Type := mk {
  Id : option UUID;
  Name : option string;
  DefaultBranch : option string
}.
Arguments mk {UUID}.
Arguments Id {UUID}.
Arguments Name {UUID}.
Arguments DefaultBranch {UUID}.
End GitRepository.

Inductive VersionControlRecursionType : Type :=
| RecursionNone | RecursionOneLevel | RecursionOneLevelPlusNestedEmptyFolders
| RecursionFull.

Inductive GitVersionOptions : Type :=
| VersionOptionsNone | VersionOptionsPreviousChange | VersionOptionsFirstParent.

Inductive GitVersionType : Type :=
| VersionTypeBranch | VersionTypeTag | VersionTypeCommit.

(** The branch, tag or commit an item is read at. *)
Module GitVersionDescriptor.
Record t : Type := mk {
  Version : option string;
  VersionOptions : option GitVersionOptions;
  VersionType : option GitVersionType
}.
End GitVersionDescriptor.

Module GetItemArgs.
Record t : Type := mk {
  RepositoryId : option string;
  Path : option string;
  Project : option string;
  ScopePath : option string;
  RecursionLevel : option VersionControlRecursionType;
  IncludeContentMetadata : option bool;
  LatestProcessedChange : option bool;
  Download : option bool;
  VersionDescriptor : option GitVersionDescriptor.t;
  IncludeContent : option bool;
  ResolveLfs : option bool
}.
End GetItemArgs.

(** [git.GitItem]: only [Content] is read. *)
Module GitItem.
Record t : Type := mk {
  Content : option string;
  IsFolder : option bool;
  Path : option string
}.
End GitItem.

(** The two client interfaces, as the answers of the upstream service under
    a given context.  Each operation calls each method at most once. *)
Module search_Client.
Record t (context_Context : Type) : Type := mk {
  FetchCodeSearchResults :
    context_Context -> FetchCodeSearchResultsArgs.t ->
    option CodeSearchResponse.t * option error
}.
Arguments mk {context_Context}.
Arguments FetchCodeSearchResults {context_Context}.
End search_Client.

Module git_Client.
Record t (context_Context UUID : Type) : Type := mk {
  GetRepositories :
    context_Context -> GetRepositoriesArgs.t ->
    option (list (GitRepository.t UUID)) * option error;
  GetItem :
    context_Context -> GetItemArgs.t -> option GitItem.t * option error
}.
Arguments mk {context_Context UUID}.
Arguments GetRepositories {context_Context UUID}.
Arguments GetItem {context_Context UUID}.
End git_Client.

(** ** Structs of the tool protocol library *)

Module mcp.
Inductive Content : Type :=
| TextContent (type text : string).

Record CallToolResult : Type := mkCallToolResult {
  content : list Content;
  IsError : bool
}.

Record Params : Type := mkParams {
  Name : string;
  Arguments : gmap string value
}.

Record CallToolRequest : Type := mkCallToolRequest { params : Params }.

Definition NewToolResultText (text : string) : CallToolResult :=
  {| content := [TextContent "text" text]; IsError := false |}.
End mcp.

(** ** Structs of [main.go] *)

Module AzureDevOpsConfig.
Record t : Type := mk {
  Organization : string;
  Project : string;
  PAT : string;
  APIVersion : string
}.
End AzureDevOpsConfig.

Module ServerConfig.
Record t : Type := mk { Port : Z; Host : string }.
End ServerConfig.

Module Config.
Record t : Type := mk {
  AzureDevOps : AzureDevOpsConfig.t;
  Server : ServerConfig.t
}.
End Config.

(** [AzureDevOpsClient]; the [connection] field is only used to build the
    two clients at start-up. *)
Module AzureDevOpsClient.
Record t (context_Context UUID : Type) : Type := mk {
  config : Config.t;
  gitClient : git_Client.t context_Context UUID;
  searchClient : search_Client.t context_Context
}.
Arguments mk {context_Context UUID}.
Arguments config {context_Context UUID}.
Arguments gitClient {context_Context UUID}.
Arguments searchClient {context_Context UUID}.
End AzureDevOpsClient.

(** ** Effects *)

(** What a call leaves behind: the requests sent upstream and the lines
    logged (without the logger's time stamp). *)
Inductive event : Type :=
| EvFetchCodeSearchResults (args : FetchCodeSearchResultsArgs.t)
| EvGetRepositories (args : GetRepositoriesArgs.t)
| EvGetItem (args : GetItemArgs.t)
| EvLog (line : string).

Definition is_upstream (e : event) : bool :=
  match e with
  | EvLog _ => false
  | _ => true
  end.

(** The upstream requests of a trace, in order. *)
Definition upstream_calls (tr : list event) : list event :=
  List.filter is_upstream tr.

Inductive outcome (A : Type) : Type :=
| Done (a : A)
| Panic.
Arguments Done {A}.
Arguments Panic {A}.

(** A Go computation: its outcome and the trace it produced. *)
Definition go (A : Type) : Type := outcome A * list event.

#[export] Instance go_ret : MRet go := fun A a => (Done a, []).

#[export] Instance go_bind : MBind go := fun A B f m =>
  match m with
  | (Done a, tr) => let '(o, tr') := f a in (o, tr ++ tr')
  | (Panic, tr) => (Panic, tr)
  end.

Definition emit (e : event) : go unit := (Done tt, [e]).

(** [*p]: a nil pointer dereference panics. *)
Definition deref {A : Type} (p : option A) : go A :=
  match p with
  | Some a => mret a
  | None => (Panic, [])
  end.

(** [log.Printf] with the message already formatted. *)
Definition log_Printf (line : string) : go unit := emit (EvLog line).

(** ** The program *)

Section Server.
Context {context_Context UUID : Type}.

(** [uuid.UUID.String]: the canonical text of a repository id. *)
Variable UUID_String : UUID -> string.

(** The tail of [strings.EqualFold] that is entered at the first byte
    outside ASCII: it decodes UTF-8 and compares runes through the
    Unicode simple-folding tables. *)
Variable foldUnicode : string -> string -> bool.

(** How [encoding/json] renders one [interface{}] value (quoting and
    escaping of strings, number formatting, nested containers). *)
Variable encodeValue : value -> string.

(** [strings.EqualFold]: the byte loop over the common prefix, then the
    length test.  Bytes are compared as numbers. *)
Fixpoint EqualFold (s t : string) : bool :=
  match s, t with
  | String sr s', String tr t' =>
      let a := N_of_ascii sr in
      let b := N_of_ascii tr in
      if (128 <=? N.lor a b)%N then foldUnicode s t
      else if (a =? b)%N then EqualFold s' t'
      else
        let lo := N.min a b in
        let hi := N.max a b in
        if (65 <=? lo)%N && (lo <=? 90)%N && (hi =? lo + 32)%N
        then EqualFold s' t'
        else false
  | EmptyString, EmptyString => true
  | _, _ => false
  end.

(** [json.Marshal] on a [[]map[string]interface{}]: a nil slice is
    [null]; a map is written with its keys in byte order.  Marshalling
    does not fail on the values that reach it here (Go strings). *)
Definition key_le (a b : string * value) : Prop := String.leb a.1 b.1.

Definition marshal_map (m : gmap string value) : string :=
  "{" +:+
  String.concat ","
    (List.map (fun kv : string * value =>
                 encodeValue (VString kv.1) +:+ ":" +:+ encodeValue kv.2)
              (merge_sort key_le (map_to_list m)))
  +:+ "}".

Definition json_Marshal (v : option (list (gmap string value)))
  : string * option error :=
  match v with
  | None => ("null", None)
  | Some ms =>
      ("[" +:+ String.concat "," (List.map marshal_map ms) +:+ "]", None)
  end.

Abbreviation Client := (AzureDevOpsClient.t context_Context UUID).

Definition project_of (c : Client) : string :=
  AzureDevOpsConfig.Project (Config.AzureDevOps (AzureDevOpsClient.config c)).

(** The upstream calls: the request goes on the trace, the client's
    answer is the result. *)
Definition call_FetchCodeSearchResults (c : Client) (ctx : context_Context)
    (args : FetchCodeSearchResultsArgs.t)
  : go (option CodeSearchResponse.t * option error) :=
  emit (EvFetchCodeSearchResults args);;
  mret (search_Client.FetchCodeSearchResults
          (AzureDevOpsClient.searchClient c) ctx args).

Definition call_GetRepositories (c : Client) (ctx : context_Context)
    (args : GetRepositoriesArgs.t)
  : go (option (list (GitRepository.t UUID)) * option error) :=
  emit (EvGetRepositories args);;
  mret (git_Client.GetRepositories (AzureDevOpsClient.gitClient c) ctx args).

Definition call_GetItem (c : Client) (ctx : context_Context)
    (args : GetItemArgs.t) : go (option GitItem.t * option error) :=
  emit (EvGetItem args);;
  mret (git_Client.GetItem (AzureDevOpsClient.gitClient c) ctx args).

(** *** [searchRepository] *)

(** The [continue] test of the result loop. *)
Definition incomplete (result : CodeResult.t) : bool :=
  bool_decide (CodeResult.Repository result = None)
  || bool_decide (CodeResult.Path result = None)
  || bool_decide (CodeResult.FileName result = None).

(** The map literal appended for one hit; its four values are evaluated
    in the order written. *)
Definition record_of (result : CodeResult.t) : go (gmap string value) :=
  repo ← deref (CodeResult.Repository result);
  repository ← deref (Repository.Name repo);
  path ← deref (CodeResult.Path result);
  fileName ← deref (CodeResult.FileName result);
  proj ← deref (CodeResult.Project result);
  project ← deref (Project.Name proj);
  mret (<["project" := VString project]>
        (<["fileName" := VString fileName]>
         (<["path" := VString path]>
          (<["repository" := VString repository]> ∅)))).

(** The loop over the hits of the response, appending to [results]. *)
Fixpoint process_results (hits : list CodeResult.t)
    (results : list (gmap string value)) : go (list (gmap string value)) :=
  match hits with
  | [] => mret results
  | result :: rest =>
      if incomplete result then process_results rest results
      else
        r ← record_of result;
        process_results rest (results ++ [r])
  end.

Definition search_filters (c : Client) (repoName : string)
  : gmap string (list string) :=
  let filters : gmap string (list string) := ∅ in
  let filters := <["Project" := [project_of c]]> filters in
  if bool_decide (repoName ≠ "")
  then <["Repository" := [repoName]]> filters
  else filters.

Definition search_request (c : Client) (query repoName : string)
  : CodeSearchRequest.t :=
  let includeSnippet := true in
  {| CodeSearchRequest.SearchText := Some query;
     CodeSearchRequest.Filters := Some (search_filters c repoName);
     CodeSearchRequest.IncludeSnippet := Some includeSnippet;
     CodeSearchRequest.Top := Some 1000;
     CodeSearchRequest.OrderBy := None;
     CodeSearchRequest.Skip := None;
     CodeSearchRequest.IncludeFacets := None |}.

Definition search_args (c : Client) (query repoName : string)
  : FetchCodeSearchResultsArgs.t :=
  let searchRequest := search_request c query repoName in
  {| FetchCodeSearchResultsArgs.Project := Some (project_of c);
     FetchCodeSearchResultsArgs.Request := Some searchRequest |}.

Definition searchRepository (c : Client) (ctx : context_Context)
    (query repoName : string)
  : go (option (list (gmap string value)) * option error) :=
  '(response, err) ← call_FetchCodeSearchResults c ctx
      (search_args c query repoName);
  match err with
  | Some err =>
      log_Printf ("Error searching code: " +:+ Error err);;
      mret (None, Some (Errorf_w "error searching code: " err))
  | None =>
      let results : list (gmap string value) := [] in
      results ←
        match response with
        | Some response =>
            match CodeSearchResponse.Results response with
            | Some hits => process_results hits results
            | None => mret results
            end
        | None => mret results
        end;
      mret (Some results, None)
  end.

(** *** [getFileContent] *)

(** The scan for the target repository: the loop over the listing that
    dereferences each [repo.Name], compares it with [repoName] under
    [strings.EqualFold], and on the first match sets [targetRepo] and
    breaks.  [targetRepo] starts as nil. *)
Fixpoint find_repo (repos : list (GitRepository.t UUID)) (repoName : string)
  : go (option (GitRepository.t UUID)) :=
  match repos with
  | [] => mret None
  | repo :: rest =>
      name ← deref (GitRepository.Name repo);
      if EqualFold name repoName then mret (Some repo)
      else find_repo rest repoName
  end.

Definition item_args (c : Client) (repoID path : string) : GetItemArgs.t :=
  {| GetItemArgs.RepositoryId := Some repoID;
     GetItemArgs.Project := Some (project_of c);
     GetItemArgs.Path := Some path;
     GetItemArgs.IncludeContent := Some true;
     GetItemArgs.ScopePath := None;
     GetItemArgs.RecursionLevel := None;
     GetItemArgs.IncludeContentMetadata := None;
     GetItemArgs.LatestProcessedChange := None;
     GetItemArgs.Download := None;
     GetItemArgs.VersionDescriptor := None;
     GetItemArgs.ResolveLfs := None |}.

Definition repositories_args (c : Client) : GetRepositoriesArgs.t :=
  {| GetRepositoriesArgs.Project := Some (project_of c);
     GetRepositoriesArgs.IncludeLinks := None;
     GetRepositoriesArgs.IncludeAllUrls := None;
     GetRepositoriesArgs.IncludeHidden := None |}.

Definition getFileContent (c : Client) (ctx : context_Context)
    (repoName path : string) : go (string * option error) :=
  '(repos, err) ← call_GetRepositories c ctx (repositories_args c);
  match err with
  | Some err =>
      log_Printf ("Error getting repositories: " +:+ Error err);;
      mret ("", Some err)
  | None =>
      repos ← deref repos;
      targetRepo ← find_repo repos repoName;
      match targetRepo with
      | None =>
          log_Printf ("Repository not found: " +:+ repoName);;
          mret ("", Some (Errorf_s "repository not found: " repoName))
      | Some targetRepo =>
          id ← deref (GitRepository.Id targetRepo);
          let repoID := UUID_String id in
          '(item, err) ← call_GetItem c ctx (item_args c repoID path);
          match err with
          | Some err =>
              log_Printf ("Error getting file content: " +:+ Error err);;
              mret ("", Some err)
          | None =>
              item ← deref item;
              match GitItem.Content item with
              | None => mret ("", None)
              | Some content => mret (content, None)
              end
          end
      end
  end.

(** *** The tool handlers registered in [main] *)

Definition search_handler (client : Client) (ctx : context_Context)
    (request : mcp.CallToolRequest)
  : go (option mcp.CallToolResult * option error) :=
  let arguments := mcp.Arguments (mcp.params request) in
  let '(query, ok) := assert_string (index arguments "query") in
  if negb ok then
    log_Printf "Query must be a string";;
    mret (None, Some (errorString "query must be a string"))
  else
    let '(repoName, _) := assert_string (index arguments "repo") in
    '(results, err) ← searchRepository client ctx query repoName;
    match err with
    | Some err =>
        log_Printf ("Error searching repositories: " +:+ Error err);;
        mret (None, Some (Errorf_w "error searching repositories: " err))
    | None =>
        let '(jsonData, err) := json_Marshal results in
        match err with
        | Some err =>
            log_Printf ("Error marshaling results: " +:+ Error err);;
            mret (None, Some (Errorf_w "error marshaling results: " err))
        | None => mret (Some (mcp.NewToolResultText jsonData), None)
        end
    end.

Definition read_handler (client : Client) (ctx : context_Context)
    (request : mcp.CallToolRequest)
  : go (option mcp.CallToolResult * option error) :=
  let arguments := mcp.Arguments (mcp.params request) in
  let '(repo, ok) := assert_string (index arguments "repository") in
  if negb ok then
    log_Printf "Repository must be a string";;
    mret (None, Some (errorString "repository must be a string"))
  else
    let '(path, ok) := assert_string (index arguments "path") in
    if negb ok then
      log_Printf "Path must be a string";;
      mret (None, Some (errorString "path must be a string"))
    else
      '(content, err) ← getFileContent client ctx repo path;
      match err with
      | Some err =>
          log_Printf ("Error getting file content: " +:+ Error err);;
          mret (None, Some (Errorf_w "error getting file content: " err))
      | None => mret (Some (mcp.NewToolResultText content), None)
      end.

End Server.

(** ** The tool table of [main] *)

(** The two tools added to the server. *)
Inductive tool : Type := searchTool | readTool.

(** [mcp.NewTool(name, ...)]. *)
Definition tool_name (t : tool) : string :=
  match t with
  | searchTool => "search"
  | readTool => "read"
  end.

(** The arguments declared with [mcp.Required()]. *)
Definition required_arguments (t : tool) : list string :=
  match t with
  | searchTool => ["query"]
  | readTool => ["repository"; "path"]
  end.

(** All the arguments a tool declares. *)
Definition declared_arguments (t : tool) : list string :=
  match t with
  | searchTool => ["query"; "repo"]
  | readTool => ["repository"; "path"]
  end.

(** The handler [s.AddTool] registers for each tool. *)
Definition handler {context_Context UUID : Type}
    (UUID_String : UUID -> string) (foldUnicode : string -> string -> bool)
    (encodeValue : value -> string) (t : tool)
    (client : AzureDevOpsClient.t context_Context UUID)
    (ctx : context_Context) (request : mcp.CallToolRequest)
  : go (option mcp.CallToolResult * option error) :=
  match t with
  | searchTool => search_handler encodeValue client ctx request
  | readTool => read_handler UUID_String foldUnicode client ctx request
  end.

(** ** Test fixtures

    A project "HCC" whose upstream answers are fixed in advance.  Contexts
    carry nothing, repository ids are already text, the Unicode tail of
    [EqualFold] rejects, and values are rendered as quoted strings without
    escaping. *)
Module Fixture.
Definition UUID_String (id : string) : string := id.
Definition foldUnicode (_ _ : string) : bool := false.

Definition quote : string := String (ascii_of_nat 34) EmptyString.
Definition encodeValue (v : value) : string :=
  match v with
  | VString s => quote +:+ s +:+ quote
  | _ => "null"
  end.

Definition config : Config.t :=
  {| Config.AzureDevOps :=
       {| AzureDevOpsConfig.Organization := "your-org";
          AzureDevOpsConfig.Project := "HCC";
          AzureDevOpsConfig.PAT := "pat";
          AzureDevOpsConfig.APIVersion := "6.0" |};
     Config.Server :=
       {| ServerConfig.Port := 8080; ServerConfig.Host := "localhost" |} |}.

Definition client
    (found : option CodeSearchResponse.t * option error)
    (repos : option (list (GitRepository.t string)) * option error)
    (item : option GitItem.t * option error)
  : AzureDevOpsClient.t unit string :=
  {| AzureDevOpsClient.config := config;
     AzureDevOpsClient.gitClient :=
       {| git_Client.GetRepositories := fun _ _ => repos;
          git_Client.GetItem := fun _ _ => item |};
     AzureDevOpsClient.searchClient :=
       {| search_Client.FetchCodeSearchResults := fun _ _ => found |} |}.

Definition hit (repository path fileName project : string) : CodeResult.t :=
  {| CodeResult.Repository :=
       Some {| Repository.Id := None; Repository.Name := Some repository |};
     CodeResult.Path := Some path;
     CodeResult.FileName := Some fileName;
     CodeResult.Project := Some {| Project.Name := Some project |} |}.

Definition response (hits : list CodeResult.t)
  : option CodeSearchResponse.t * option error :=
  (Some {| CodeSearchResponse.Count := None;
           CodeSearchResponse.Results := Some hits |}, None).

Definition repo (name id : string) : GitRepository.t string :=
  {| GitRepository.Id := Some id;
     GitRepository.Name := Some name;
     GitRepository.DefaultBranch := None |}.

Definition file (content : option string) : option GitItem.t * option error :=
  (Some {| GitItem.Content := content;
           GitItem.IsFolder := None;
           GitItem.Path := None |}, None).

Definition request (name : string) (arguments : list (string * value))
  : mcp.CallToolRequest :=
  {| mcp.params :=
       {| mcp.Name := name; mcp.Arguments := list_to_map arguments |} |}.

Definition unused {A : Type} : option A * option error :=
  (None, Some (errorString "unused")).

(** The record [searchRepository] builds for [hit]. *)
Definition record (repository path fileName project : string)
  : gmap string value :=
  <["project" := VString project]>
    (<["fileName" := VString fileName]>
       (<["path" := VString path]>
          (<["repository" := VString repository]> ∅))).

(** A hit without its path, and a hit without its project. *)
Definition pathless_hit : CodeResult.t :=
  {| CodeResult.Repository :=
       Some {| Repository.Id := None; Repository.Name := Some "Svc" |};
     CodeResult.Path := None;
     CodeResult.FileName := Some "b.go";
     CodeResult.Project := Some {| Project.Name := Some "HCC" |} |}.

Definition projectless_hit : CodeResult.t :=
  {| CodeResult.Repository :=
       Some {| Repository.Id := None; Repository.Name := Some "Svc" |};
     CodeResult.Path := Some "/src/a.go";
     CodeResult.FileName := Some "a.go";
     CodeResult.Project := None |}.

Definition search_client (hits : list CodeResult.t)
  : AzureDevOpsClient.t unit string :=
  client (response hits) unused unused.

Definition repos : list (GitRepository.t string) :=
  [repo "Other" "id-1"; repo "myrepo" "id-2"; repo "MYREPO" "id-3"].

Definition read_client (item : option GitItem.t * option error)
  : AzureDevOpsClient.t unit string :=
  client unused (Some repos, None) item.
End Fixture.

(** ** Vocabulary of the specification *)

(** A search record built from a hit that carries all four fields. *)
Definition complete_hit (h : CodeResult.t) (r : gmap string value) : Prop :=
  ∃ repo repository path fileName proj project,
    CodeResult.Repository h = Some repo
    ∧ Repository.Name repo = Some repository
    ∧ CodeResult.Path h = Some path
    ∧ CodeResult.FileName h = Some fileName
    ∧ CodeResult.Project h = Some proj
    ∧ Project.Name proj = Some project
    ∧ r = <["project" := VString project]>
          (<["fileName" := VString fileName]>
           (<["path" := VString path]>
            (<["repository" := VString repository]> ∅))).

(** The hits that get past the [continue] test, in upstream order. *)
Definition kept (hits : list CodeResult.t) : list CodeResult.t :=
  List.filter (fun h => negb (incomplete h)) hits.

(** An upstream search answer with nothing in it: a nil response, a nil
    result set, or an empty one. *)
Definition no_hits (response : option CodeSearchResponse.t) : Prop :=
  match response with
  | None => True
  | Some r =>
      CodeSearchResponse.Results r = None
      ∨ CodeSearchResponse.Results r = Some []
  end.

(** Specification 4.2: the first repository of the listing whose name
    equals the target case-insensitively. *)
Definition first_match {UUID : Type} (foldUnicode : string -> string -> bool)
    (repoName : string) (repos : list (GitRepository.t UUID))
  : option (GitRepository.t UUID) :=
  List.find
    (fun repo =>
       match GitRepository.Name repo with
       | Some name => EqualFold foldUnicode name repoName
       | None => false
       end)
    repos.


(** A call that lacks a required argument: absent, or not a string. *)
Definition lacks_required (t : tool) (arguments : gmap string value) : bool :=
  existsb (fun k => negb (assert_string (index arguments k)).2)
          (required_arguments t).

(** The text of the errors the handlers return on a failed argument check. *)
Definition validation_messages : list string :=
  ["query must be a string"; "repository must be a string";
   "path must be a string"].

(** The same request with one more (or one changed) argument. *)
Definition with_argument (request : mcp.CallToolRequest) (k : string)
    (v : value) : mcp.CallToolRequest :=
  {| mcp.params :=
       {| mcp.Name := mcp.Name (mcp.params request);
          mcp.Arguments :=
            <[k := v]> (mcp.Arguments (mcp.params request)) |} |}.

(** The error [getFileContent] returns when the scan finds no repository. *)
Definition NotFound (repoName : string) : error :=
  errorString ("repository not found: " +:+ repoName).

(** ** Start-up: [NewAzureDevOpsClient] and [main] *)

(** [azuredevops.NewPatConnection]: a connection is known by the
    organization URL and the token it was built from. *)
Inductive Connection : Type :=
| NewPatConnection (organizationUrl personalAccessToken : string).

(** The options [main] passes to [server.NewMCPServer]. *)
Inductive ServerOption : Type :=
| WithResourceCapabilities (subscribe listChanged : bool)
| WithPromptCapabilities (listChanged : bool)
| WithToolCapabilities (listChanged : bool).

(** What start-up leaves behind: the library calls it makes, in order, and
    the lines it logs. *)
Inductive boot_event : Type :=
| BvSetConfigName (name : string)
| BvSetConfigType (type : string)
| BvAddConfigPath (path : string)
| BvReadInConfig
| BvUnmarshal
| BvGetenv (key : string)
| BvGitNewClient (connection : Connection)
| BvSearchNewClient (connection : Connection)
| BvNewMCPServer (name version : string) (opts : list ServerOption)
| BvAddTool (t : tool)
| BvNewSSEServer (baseURL : string)
| BvStart (addr : string)
| BvLog (line : string).

(** The surroundings of the process at start-up: the answers of viper on
    the configuration file, the environment, and the answers of the client
    constructors and of the server loop.  A client constructor returns a
    client or an error (the library returns a non-nil client exactly when
    the error is nil). *)
Module Process.
Record t (context_Context UUID : Type) : Type := mk {
  ReadInConfig : option error;
  Unmarshal : Config.t * option error;
  Getenv : string -> string;
  Background : context_Context;
  git_NewClient :
    context_Context -> Connection -> git_Client.t context_Context UUID + error;
  search_NewClient :
    context_Context -> Connection -> search_Client.t context_Context + error;
  Start : string -> option error
}.
Arguments mk {context_Context UUID}.
Arguments ReadInConfig {context_Context UUID}.
Arguments Unmarshal {context_Context UUID}.
Arguments Getenv {context_Context UUID}.
Arguments Background {context_Context UUID}.
Arguments git_NewClient {context_Context UUID}.
Arguments search_NewClient {context_Context UUID}.
Arguments Start {context_Context UUID}.
End Process.

(** A start-up computation: its result and the trace it produced. *)
Definition boot (A : Type) : Type := A * list boot_event.

Definition boot_ret {A : Type} (a : A) : boot A := (a, []).

Definition boot_bind {A B : Type} (m : boot A) (f : A -> boot B) : boot B :=
  let '(a, tr) := m in
  let '(b, tr') := f a in
  (b, tr ++ tr').

Definition boot_emit (e : boot_event) : boot unit := (tt, [e]).

Declare Scope boot_scope.
Delimit Scope boot_scope with boot.
Notation "x <- m ;; k" := (boot_bind m (fun x => k))
  (at level 100, m at next level, right associativity) : boot_scope.
Notation "m ;;; k" := (boot_bind m (fun _ => k))
  (at level 100, right associativity) : boot_scope.

(** How main ends: it returns, it exits through [log.Fatalf], or it
    dereferences a nil client. *)
Inductive main_exit : Type := MainReturned | MainFatal | MainPanic.

(** [fmt.Sprintf("%d", n)] on an int. *)
Definition itoa (n : Z) : string := NilZero.string_of_int (Z.to_int n).

(** [config.AzureDevOps.PAT = pat]. *)
Definition set_PAT (config : Config.t) (pat : string) : Config.t :=
  {| Config.AzureDevOps :=
       {| AzureDevOpsConfig.Organization :=
            AzureDevOpsConfig.Organization (Config.AzureDevOps config);
          AzureDevOpsConfig.Project :=
            AzureDevOpsConfig.Project (Config.AzureDevOps config);
          AzureDevOpsConfig.PAT := pat;
          AzureDevOpsConfig.APIVersion :=
            AzureDevOpsConfig.APIVersion (Config.AzureDevOps config) |};
     Config.Server := Config.Server config |}.

Section Startup.
Context {context_Context UUID : Type}.

Abbreviation Client := (AzureDevOpsClient.t context_Context UUID).
Abbreviation Process := (Process.t context_Context UUID).

Open Scope boot_scope.

Definition NewAzureDevOpsClient (p : Process)
  : boot (option Client * option error) :=
  boot_emit (BvSetConfigName "config");;;
  boot_emit (BvSetConfigType "yaml");;;
  boot_emit (BvAddConfigPath ".");;;
  boot_emit BvReadInConfig;;;
  match Process.ReadInConfig p with
  | Some err =>
      boot_emit (BvLog ("Error reading config: " +:+ Error err));;;
      boot_ret (None, Some (Errorf_w "error reading config: " err))
  | None =>
      boot_emit BvUnmarshal;;;
      let '(config, err) := Process.Unmarshal p in
      match err with
      | Some err =>
          boot_emit (BvLog ("Error unmarshaling config: " +:+ Error err));;;
          boot_ret (None, Some (Errorf_w "error unmarshaling config: " err))
      | None =>
          boot_emit (BvGetenv "AZURE_DEVOPS_PAT");;;
          let pat := Process.Getenv p "AZURE_DEVOPS_PAT" in
          let config :=
            if bool_decide (pat ≠ "") then set_PAT config pat else config in
          if bool_decide
               (AzureDevOpsConfig.PAT (Config.AzureDevOps config) = "")
          then
            boot_emit (BvLog "Azure DevOps PAT is required");;;
            boot_ret (None, Some (errorString "Azure DevOps PAT is required"))
          else
            let organizationURL :=
              "https://dev.azure.com/"
              +:+ AzureDevOpsConfig.Organization (Config.AzureDevOps config)
            in
            let connection :=
              NewPatConnection organizationURL
                (AzureDevOpsConfig.PAT (Config.AzureDevOps config)) in
            boot_emit (BvGitNewClient connection);;;
            match Process.git_NewClient p (Process.Background p) connection
            with
            | inr err =>
                boot_emit
                  (BvLog ("Failed to create git client: " +:+ Error err));;;
                boot_ret
                  (None, Some (Errorf_w "failed to create git client: " err))
            | inl gitClient =>
                boot_emit (BvSearchNewClient connection);;;
                match Process.search_NewClient p (Process.Background p)
                        connection with
                | inr err =>
                    boot_emit
                      (BvLog ("Failed to create search client: "
                              +:+ Error err));;;
                    boot_ret
                      (None,
                       Some (Errorf_w "failed to create search client: " err))
                | inl searchClient =>
                    boot_ret
                      (Some {| AzureDevOpsClient.config := config;
                               AzureDevOpsClient.gitClient := gitClient;
                               AzureDevOpsClient.searchClient := searchClient |},
                       None)
                end
            end
      end
  end.

(** [host:port], as both [fmt.Sprintf] calls of [main] print it. *)
Definition host_port (client : Client) : string :=
  ServerConfig.Host (Config.Server (AzureDevOpsClient.config client))
  +:+ ":"
  +:+ itoa (ServerConfig.Port (Config.Server (AzureDevOpsClient.config client))).

Definition main (p : Process) : boot main_exit :=
  r <- NewAzureDevOpsClient p;;
  let '(client, err) := r in
  match err with
  | Some err =>
      boot_emit
        (BvLog ("Failed to create Azure DevOps client: " +:+ Error err));;;
      boot_ret MainFatal
  | None =>
      boot_emit
        (BvNewMCPServer "Azure DevOps MCP Server" "1.0.0"
           [WithResourceCapabilities true true;
            WithPromptCapabilities true;
            WithToolCapabilities true]);;;
      boot_emit (BvAddTool searchTool);;;
      boot_emit (BvAddTool readTool);;;
      match client with
      | None => boot_ret MainPanic
      | Some client =>
          boot_emit (BvNewSSEServer ("http://" +:+ host_port client));;;
          boot_emit
            (BvLog ("SSE server listening on " +:+ host_port client));;;
          boot_emit (BvStart (host_port client));;;
          match Process.Start p (host_port client) with
          | Some err =>
              boot_emit (BvLog ("Server error: " +:+ Error err));;;
              boot_ret MainFatal
          | None => boot_ret MainReturned
          end
      end
  end.

End Startup.

(** ** Further vocabulary *)

(** A hit with none of its pointers nil. *)
Definition populated (h : CodeResult.t) : Prop := ∃ r, complete_hit h r.

(** The keys of a search record. *)
Definition record_keys : gset string :=
  {["repository"; "path"; "fileName"; "project"]}.

(** A string of ASCII bytes only, and its lower-case form (only the
    letters A to Z change). *)
Definition ascii_byte (a : ascii) : bool := (N_of_ascii a <? 128)%N.

Fixpoint ascii_only (s : string) : bool :=
  match s with
  | EmptyString => true
  | String a s' => ascii_byte a && ascii_only s'
  end.

Definition lower_byte (a : ascii) : ascii :=
  let n := N_of_ascii a in
  if (65 <=? n)%N && (n <=? 90)%N then ascii_of_N (n + 32) else a.

Fixpoint to_lower (s : string) : string :=
  match s with
  | EmptyString => EmptyString
  | String a s' => String (lower_byte a) (to_lower s')
  end.

(** A repository of the listing that the scan reads and passes over: it
    has a name, and the name does not fold to the target. *)
Definition passed_over {UUID : Type} (foldUnicode : string -> string -> bool)
    (repoName : string) (repo : GitRepository.t UUID) : Prop :=
  ∃ name, GitRepository.Name repo = Some name
          ∧ EqualFold foldUnicode name repoName = false.

(** The token start-up works with: the environment variable when it is
    set and not empty, the token of the configuration file otherwise. *)
Definition effective_PAT {context_Context UUID : Type}
    (p : Process.t context_Context UUID) : string :=
  if bool_decide (Process.Getenv p "AZURE_DEVOPS_PAT" = "")
  then AzureDevOpsConfig.PAT (Config.AzureDevOps (Process.Unmarshal p).1)
  else Process.Getenv p "AZURE_DEVOPS_PAT".

(** The connection start-up builds its clients from. *)
Definition startup_connection {context_Context UUID : Type}
    (p : Process.t context_Context UUID) : Connection :=
  NewPatConnection
    ("https://dev.azure.com/"
     +:+ AzureDevOpsConfig.Organization
           (Config.AzureDevOps (Process.Unmarshal p).1))
    (effective_PAT p).

(** The events of the server part of [main]. *)
Definition is_server_event (e : boot_event) : bool :=
  match e with
  | BvNewMCPServer _ _ _ | BvAddTool _ | BvNewSSEServer _ | BvStart _ => true
  | _ => false
  end.

(** The events in which start-up constructs a client. *)
Definition is_constructor_event (e : boot_event) : bool :=
  match e with
  | BvGitNewClient _ | BvSearchNewClient _ => true
  | _ => false
  end.

(** ** Start-up fixtures

    A process whose configuration file is that of [Fixture], with or
    without a token, and whose client constructors succeed. *)
Module BootFixture.
Definition tokenless : Config.t := set_PAT Fixture.config "".

Definition git : git_Client.t unit string :=
  AzureDevOpsClient.gitClient
    (Fixture.read_client (Fixture.file (Some "hello"))).

Definition search : search_Client.t unit :=
  AzureDevOpsClient.searchClient (Fixture.search_client []).

Definition process (read : option error) (decoded : Config.t * option error)
    (token : string) : Process.t unit string :=
  {| Process.ReadInConfig := read;
     Process.Unmarshal := decoded;
     Process.Getenv :=
       fun key =>
         if bool_decide (key = "AZURE_DEVOPS_PAT") then token else "";
     Process.Background := tt;
     Process.git_NewClient := fun _ _ => inl git;
     Process.search_NewClient := fun _ _ => inl search;
     Process.Start := fun _ => None |}.
End BootFixture.

(** ** Properties *)

Ltac go_unfold :=
  unfold mbind, mret, go_bind, go_ret, emit, log_Printf, deref in *.

(** Case analysis on the upstream answers a read call meets, in the order
    it meets them. *)
Ltac read_cases :=
  destruct (git_Client.GetRepositories _ _ _) as [[?repos|] [?err|]]; cbn;
  try (destruct (find_repo _ _ _).1 as [[?targetRepo|]|]; cbn;
       try (destruct (GitRepository.Id _) as [?id|]; cbn;
            try (destruct (git_Client.GetItem _ _ (item_args _ _ _))
                   as [[?item|] [?err|]] eqn:?; cbn))).

Section Properties.
Context {context_Context UUID : Type}.
Variable UUID_String : UUID -> string.
Variable foldUnicode : string -> string -> bool.
Variable encodeValue : value -> string.

Abbreviation Client := (AzureDevOpsClient.t context_Context UUID).

Implicit Types (c : Client) (ctx : context_Context).
Implicit Types (h result : CodeResult.t) (hits : list CodeResult.t).
Implicit Types (r : gmap string value) (results : list (gmap string value)).

(** *** The result loop of [searchRepository] *)

Lemma incomplete_iff h :
  incomplete h = true ↔
  CodeResult.Repository h = None ∨ CodeResult.Path h = None
  ∨ CodeResult.FileName h = None.
Proof.
  unfold incomplete.
  rewrite !orb_true_iff, !bool_decide_eq_true. tauto.
Qed.

Lemma record_of_cases h :
  (∃ r, record_of h = (Done r, []) ∧ complete_hit h r)
  ∨ (record_of h = (Panic, []) ∧ ∀ r, ¬ complete_hit h r).
Proof.
  destruct h as [fn p pr rp]. unfold record_of, complete_hit. go_unfold. cbn.
  destruct rp as [[rid [rn|]]|]; cbn;
    [destruct p as [p|]; cbn;
     [destruct fn as [fn|]; cbn;
      [destruct pr as [[[pn|]]|]; cbn|]|]| |];
    try (right; split; [reflexivity|];
         intros r (? & ? & ? & ? & ? & ? & ? & ? & ? & ? & ? & ? & _);
         simplify_eq/=).
  left. eexists. split; [reflexivity|].
  do 6 eexists. cbn. repeat split; reflexivity.
Qed.

Lemma complete_hit_functional h r r' :
  complete_hit h r → complete_hit h r' → r = r'.
Proof.
  intros (? & ? & ? & ? & ? & ? & ? & ? & ? & ? & ? & ? & ->)
         (? & ? & ? & ? & ? & ? & ? & ? & ? & ? & ? & ? & ->).
  repeat match goal with
         | H : ?x = Some _, H' : ?x = Some _ |- _ =>
             rewrite H in H'; injection H' as <-
         end.
  reflexivity.
Qed.

Lemma process_results_incomplete h hits results :
  incomplete h = true →
  process_results (h :: hits) results = process_results hits results.
Proof. intros H. cbn. now rewrite H. Qed.

Lemma process_results_cases hits : ∀ results,
  (∃ new, process_results hits results = (Done (results ++ new), [])
          ∧ Forall2 complete_hit (kept hits) new)
  ∨ (process_results hits results = (Panic, [])
     ∧ ∀ new, ¬ Forall2 complete_hit (kept hits) new).
Proof.
  induction hits as [|h hits IH]; intros results.
  - left. exists []. cbn. rewrite app_nil_r. split; [reflexivity|constructor].
  - cbn [process_results kept List.filter].
    destruct (incomplete h) eqn:Hh; cbn [negb].
    + apply IH.
    + destruct (record_of_cases h) as [(r & Hr & Hc)|[Hr Hc]].
      * go_unfold. rewrite Hr.
        destruct (IH (results ++ [r])) as [(new & Hp & Hf)|[Hp Hf]].
        -- left. exists (r :: new). unfold kept in Hp |- *. rewrite Hp.
           rewrite <- app_assoc. split; [reflexivity|].
           constructor; assumption.
        -- right. rewrite Hp. split; [reflexivity|].
           intros new Hn. inversion Hn as [|? r' ? new' Hc' Hf']; subst.
           apply (Hf new'). exact Hf'.
      * right. go_unfold. rewrite Hr. split; [reflexivity|].
        intros new Hn. inversion Hn as [|? r' ? new' Hc' Hf']; subst.
        apply (Hc r'). exact Hc'.
Qed.

Lemma Forall2_complete_hit_functional hits : ∀ rs rs',
  Forall2 complete_hit hits rs → Forall2 complete_hit hits rs' → rs = rs'.
Proof.
  induction hits as [|h hits IH]; intros rs rs' H H';
    inversion H; inversion H'; subst; [reflexivity|].
  f_equal; [eapply complete_hit_functional; eassumption|].
  apply IH; assumption.
Qed.

Lemma process_results_drop pre h post : ∀ results,
  incomplete h = true →
  process_results (pre ++ h :: post) results
  = process_results (pre ++ post) results.
Proof.
  induction pre as [|x pre IH]; intros results Hh.
  - apply process_results_incomplete, Hh.
  - cbn. destruct (incomplete x); [apply IH, Hh|].
    go_unfold. destruct (record_of x) as [[r|] tr]; [|reflexivity].
    now rewrite IH.
Qed.

(** What [searchRepository] does once the upstream has answered. *)
Lemma searchRepository_unfold c ctx query repoName :
  searchRepository c ctx query repoName
  = match search_Client.FetchCodeSearchResults
            (AzureDevOpsClient.searchClient c) ctx
            (search_args c query repoName) with
    | (_, Some err) =>
        (Done (None, Some (Errorf_w "error searching code: " err)),
         [EvFetchCodeSearchResults (search_args c query repoName);
          EvLog ("Error searching code: " +:+ Error err)])
    | (Some response, None) =>
        match CodeSearchResponse.Results response with
        | Some hits =>
            match process_results hits [] with
            | (Done results, tr) =>
                (Done (Some results, None),
                 EvFetchCodeSearchResults (search_args c query repoName)
                 :: tr)
            | (Panic, tr) =>
                (Panic,
                 EvFetchCodeSearchResults (search_args c query repoName)
                 :: tr)
            end
        | None =>
            (Done (Some [], None),
             [EvFetchCodeSearchResults (search_args c query repoName)])
        end
    | (None, None) =>
        (Done (Some [], None),
         [EvFetchCodeSearchResults (search_args c query repoName)])
    end.
Proof.
  unfold searchRepository, call_FetchCodeSearchResults. go_unfold. cbn.
  destruct (search_Client.FetchCodeSearchResults _ _ _)
    as [[response|] [err|]]; cbn; try reflexivity.
  destruct (CodeSearchResponse.Results response) as [hits|]; cbn;
    [|reflexivity].
  destruct (process_results hits []) as [[results|] tr]; cbn;
    rewrite ?app_nil_r; reflexivity.
Qed.

(** *** Search *)

(** C1.  When the upstream answers a search with a list of hits, a call
    that returns does so without error, and its records are exactly the
    records built, in upstream order, from the hits that got past the
    guard, each of which carries all four fields: repository (with its
    name), path, file name and project (with its name).  The call returns
    precisely when such a list of records exists.  A hit that lacks
    repository, path or file name fails the guard and is skipped: the
    loop runs as if the hit were not in the list. *)
Theorem search_records_only_from_complete_hits
    c ctx query repoName response hits :
  search_Client.FetchCodeSearchResults (AzureDevOpsClient.searchClient c)
    ctx (search_args c query repoName) = (Some response, None) →
  CodeSearchResponse.Results response = Some hits →
  (∀ returned err tr,
     searchRepository c ctx query repoName = (Done (returned, err), tr) ↔
     err = None
     ∧ tr = [EvFetchCodeSearchResults (search_args c query repoName)]
     ∧ ∃ rs, returned = Some rs ∧ Forall2 complete_hit (kept hits) rs)
  ∧ (∀ h, incomplete h = true ↔
          CodeResult.Repository h = None ∨ CodeResult.Path h = None
          ∨ CodeResult.FileName h = None)
  ∧ (∀ pre h post results,
       incomplete h = true →
       kept (pre ++ h :: post) = kept (pre ++ post)
       ∧ process_results (pre ++ h :: post) results
         = process_results (pre ++ post) results).
Proof.
  intros Hup Hres. split; [|split].
  - intros returned err tr.
    rewrite searchRepository_unfold, Hup, Hres.
    destruct (process_results_cases hits []) as [(new & Hp & Hf)|[Hp Hf]];
      rewrite Hp; cbn.
    + split.
      * intros [= <- <- <-]. repeat split. exists new. now split.
      * intros (-> & -> & rs & -> & Hrs).
        now rewrite (Forall2_complete_hit_functional _ _ _ Hf Hrs).
    + split; [discriminate|].
      intros (_ & _ & rs & _ & Hrs). destruct (Hf rs Hrs).
  - apply incomplete_iff.
  - intros pre h post results Hh. split.
    + unfold kept. rewrite !List.filter_app. cbn. now rewrite Hh.
    + now apply process_results_drop.
Qed.

(** C5.  Every search call sends exactly one upstream request, and sends
    it first.  The request carries the query text verbatim, a filter map
    whose "Project" entry is the configured project and whose
    "Repository" entry is present exactly when the repo argument is not
    empty (and then holds that name), a result cap of 1000 and the
    snippet flag set. *)
Theorem search_request_shape c ctx query repoName :
  ∃ o rest req filters,
    searchRepository c ctx query repoName
    = (o, EvFetchCodeSearchResults
            {| FetchCodeSearchResultsArgs.Request := Some req;
               FetchCodeSearchResultsArgs.Project := Some (project_of c) |}
          :: rest)
    ∧ upstream_calls rest = []
    ∧ CodeSearchRequest.SearchText req = Some query
    ∧ CodeSearchRequest.Filters req = Some filters
    ∧ filters !! "Project" = Some [project_of c]
    ∧ filters !! "Repository"
      = (if bool_decide (repoName = "") then None else Some [repoName])
    ∧ (is_Some (filters !! "Repository") ↔ repoName ≠ "")
    ∧ dom filters ⊆ ({["Project"; "Repository"]} : gset string)
    ∧ CodeSearchRequest.Top req = Some 1000
    ∧ CodeSearchRequest.IncludeSnippet req = Some true.
Proof.
  assert (∃ o rest,
    searchRepository c ctx query repoName
    = (o, EvFetchCodeSearchResults (search_args c query repoName) :: rest)
    ∧ upstream_calls rest = []) as (o & rest & Heq & Hrest).
  { rewrite searchRepository_unfold.
    destruct (search_Client.FetchCodeSearchResults _ _ _)
      as [[response|] [err|]]; try (do 2 eexists; split; reflexivity).
    destruct (CodeSearchResponse.Results response) as [hits|];
      try (do 2 eexists; split; reflexivity).
    destruct (process_results_cases hits []) as [(new & Hp & _)|[Hp _]];
      rewrite Hp; do 2 eexists; split; reflexivity. }
  exists o, rest, (search_request c query repoName),
    (search_filters c repoName).
  split; [exact Heq|]. split; [exact Hrest|].
  split; [reflexivity|]. split; [reflexivity|].
  unfold search_filters.
  case_bool_decide as Hne; case_bool_decide as He; try tauto.
  - rewrite lookup_insert_ne by discriminate.
    rewrite !lookup_insert_eq.
    split_and!; try reflexivity.
    split; [done|eauto].
  - rewrite lookup_insert_eq, lookup_insert_ne by discriminate.
    rewrite lookup_empty.
    split_and!; try reflexivity.
    + split; [intros [? [=]]|tauto].
    + intros x.
      rewrite dom_insert_L, dom_empty_L, !elem_of_union, !elem_of_singleton,
        elem_of_empty.
      tauto.
Qed.

(** C6.  When the upstream answers a search without error and without
    hits (a nil response, a nil result set or an empty one),
    [searchRepository] returns the empty, non-nil sequence and no error,
    and the search tool answers with the text of the empty JSON array. *)
Theorem empty_search_is_success c ctx request query response :
  index (mcp.Arguments (mcp.params request)) "query" = VString query →
  search_Client.FetchCodeSearchResults (AzureDevOpsClient.searchClient c)
    ctx
    (search_args c query
       (assert_string (index (mcp.Arguments (mcp.params request)) "repo")).1)
  = (response, None) →
  no_hits response →
  searchRepository c ctx query
    (assert_string (index (mcp.Arguments (mcp.params request)) "repo")).1
  = (Done (Some [], None),
     [EvFetchCodeSearchResults
        (search_args c query
           (assert_string
              (index (mcp.Arguments (mcp.params request)) "repo")).1)])
  ∧ search_handler encodeValue c ctx request
    = (Done (Some (mcp.NewToolResultText "[]"), None),
       [EvFetchCodeSearchResults
          (search_args c query
             (assert_string
                (index (mcp.Arguments (mcp.params request)) "repo")).1)]).
Proof.
  intros Hq Hup Hno.
  assert (searchRepository c ctx query
    (assert_string (index (mcp.Arguments (mcp.params request)) "repo")).1
  = (Done (Some [], None),
     [EvFetchCodeSearchResults
        (search_args c query
           (assert_string
              (index (mcp.Arguments (mcp.params request)) "repo")).1)]))
    as Hs.
  { rewrite searchRepository_unfold, Hup.
    destruct response as [response|]; [|reflexivity].
    destruct Hno as [-> | ->]; reflexivity. }
  split; [exact Hs|].
  unfold search_handler. rewrite Hq. cbn [assert_string negb].
  destruct (assert_string (index _ "repo")) as [repoName ok]. cbn in Hs |- *.
  go_unfold. rewrite Hs. reflexivity.
Qed.

(** *** Read *)

Implicit Types (repos : list (GitRepository.t UUID)).

Lemma find_repo_trace repos repoName :
  (find_repo foldUnicode repos repoName).2 = [].
Proof.
  induction repos as [|repo repos IH]; [reflexivity|].
  cbn. go_unfold. destruct (GitRepository.Name repo) as [name|]; cbn;
    [|reflexivity].
  destruct (EqualFold foldUnicode name repoName); [reflexivity|].
  destruct (find_repo foldUnicode repos repoName) as [o tr].
  cbn in IH. now subst.
Qed.


(** [first_match] is the first match: nothing before it matches. *)
Lemma first_match_Some repos repoName repo :
  first_match foldUnicode repoName repos = Some repo ↔
  ∃ pre post name,
    repos = pre ++ repo :: post
    ∧ GitRepository.Name repo = Some name
    ∧ EqualFold foldUnicode name repoName = true
    ∧ Forall (fun other => ∀ n, GitRepository.Name other = Some n →
                            EqualFold foldUnicode n repoName = false) pre.
Proof.
  unfold first_match. induction repos as [|x repos IH]; cbn.
  - split; [discriminate|]. intros (pre & ? & ? & H & _).
    destruct pre; discriminate.
  - destruct (GitRepository.Name x) as [n|] eqn:Hx;
      [destruct (EqualFold foldUnicode n repoName) eqn:Hn|].
    + split.
      * intros [= <-]. exists [], repos, n. repeat split; auto.
      * intros ([|y pre] & post & name & H & Hname & Hm & Hpre);
          injection H as -> ->; [reflexivity|].
        apply Forall_cons in Hpre as [Hy _].
        rewrite (Hy n Hx) in Hn. discriminate.
    + rewrite IH. split.
      * intros (pre & post & name & -> & Hname & Hm & Hpre).
        exists (x :: pre), post, name. repeat split; auto.
        constructor; [|exact Hpre]. intros n' Hn'. congruence.
      * intros ([|y pre] & post & name & H & Hname & Hm & Hpre);
          injection H as -> ->; [congruence|].
        apply Forall_cons in Hpre as [_ Hpre].
        exists pre, post, name. repeat split; auto.
    + rewrite IH. split.
      * intros (pre & post & name & -> & Hname & Hm & Hpre).
        exists (x :: pre), post, name. repeat split; auto.
        constructor; [|exact Hpre]. intros n' Hn'. congruence.
      * intros ([|y pre] & post & name & H & Hname & Hm & Hpre);
          injection H as -> ->; [congruence|].
        apply Forall_cons in Hpre as [_ Hpre].
        exists pre, post, name. repeat split; auto.
Qed.

Lemma first_match_None repos repoName :
  first_match foldUnicode repoName repos = None ↔
  Forall (fun other => ∀ n, GitRepository.Name other = Some n →
                        EqualFold foldUnicode n repoName = false) repos.
Proof.
  unfold first_match. induction repos as [|x repos IH]; cbn.
  - split; [constructor|reflexivity].
  - rewrite Forall_cons.
    destruct (GitRepository.Name x) as [n|] eqn:Hx;
      [destruct (EqualFold foldUnicode n repoName) eqn:Hn|].
    + split; [discriminate|]. intros [H _].
      rewrite (H n eq_refl) in Hn. discriminate.
    + rewrite IH. split; [|tauto]. intros H. split; [|exact H].
      intros n' [= <-]. exact Hn.
    + rewrite IH. split; [|tauto]. intros H. split; [|exact H].
      discriminate.
Qed.

(** ASCII letters fold whatever the Unicode tail does. *)
Example EqualFold_MyRepo : EqualFold foldUnicode "myrepo" "MyRepo" = true.
Proof. reflexivity. Qed.

(** What [getFileContent] does, by the answers of the upstream. *)
Lemma getFileContent_unfold c ctx repoName path :
  getFileContent UUID_String foldUnicode c ctx repoName path
  = let listing := EvGetRepositories (repositories_args c) in
    match git_Client.GetRepositories (AzureDevOpsClient.gitClient c) ctx
            (repositories_args c) with
    | (_, Some err) =>
        (Done ("", Some err),
         [listing; EvLog ("Error getting repositories: " +:+ Error err)])
    | (None, None) => (Panic, [listing])
    | (Some repos, None) =>
        match (find_repo foldUnicode repos repoName).1 with
        | Panic => (Panic, [listing])
        | Done None =>
            (Done ("", Some (NotFound repoName)),
             [listing; EvLog ("Repository not found: " +:+ repoName)])
        | Done (Some targetRepo) =>
            match GitRepository.Id targetRepo with
            | None => (Panic, [listing])
            | Some id =>
                let fetch := EvGetItem (item_args c (UUID_String id) path) in
                match git_Client.GetItem (AzureDevOpsClient.gitClient c) ctx
                        (item_args c (UUID_String id) path) with
                | (_, Some err) =>
                    (Done ("", Some err),
                     [listing; fetch;
                      EvLog ("Error getting file content: " +:+ Error err)])
                | (None, None) => (Panic, [listing; fetch])
                | (Some item, None) =>
                    (Done (default "" (GitItem.Content item), None),
                     [listing; fetch])
                end
            end
        end
    end.
Proof.
  unfold getFileContent, call_GetRepositories, call_GetItem. go_unfold. cbn.
  destruct (git_Client.GetRepositories _ _ _) as [[repos|] [err|]]; cbn;
    try reflexivity.
  pose proof (find_repo_trace repos repoName) as Htr.
  destruct (find_repo foldUnicode repos repoName) as [[[targetRepo|]|] tr];
    cbn in Htr |- *; subst tr; try reflexivity.
  destruct (GitRepository.Id targetRepo) as [id|]; cbn; [|reflexivity].
  destruct (git_Client.GetItem _ _ _) as [[item|] [err|]]; cbn;
    try reflexivity.
  destruct (GitItem.Content item); reflexivity.
Qed.


(** C3.  Every file fetch a read call sends names the repository id, the
    configured project, the path argument and the include-content flag,
    and leaves every other field of the request nil, the version
    descriptor among them.  The call reads no argument but "repository"
    and "path": two calls that agree on these two behave alike, whatever
    else (a branch, say) either carries; and the read tool declares no
    "branch" argument. *)
Theorem read_fetch_names_no_branch c ctx request :
  (∀ a,
     EvGetItem a ∈ (read_handler UUID_String foldUnicode c ctx request).2 →
     GetItemArgs.VersionDescriptor a = None
     ∧ ∃ repoID,
         a = {| GetItemArgs.RepositoryId := Some repoID;
                GetItemArgs.Project := Some (project_of c);
                GetItemArgs.Path :=
                  Some (assert_string
                          (index (mcp.Arguments (mcp.params request))
                                 "path")).1;
                GetItemArgs.IncludeContent := Some true;
                GetItemArgs.ScopePath := None;
                GetItemArgs.RecursionLevel := None;
                GetItemArgs.IncludeContentMetadata := None;
                GetItemArgs.LatestProcessedChange := None;
                GetItemArgs.Download := None;
                GetItemArgs.VersionDescriptor := None;
                GetItemArgs.ResolveLfs := None |})
  ∧ (∀ request',
       index (mcp.Arguments (mcp.params request')) "repository"
       = index (mcp.Arguments (mcp.params request)) "repository" →
       index (mcp.Arguments (mcp.params request')) "path"
       = index (mcp.Arguments (mcp.params request)) "path" →
       read_handler UUID_String foldUnicode c ctx request'
       = read_handler UUID_String foldUnicode c ctx request)
  ∧ (∀ v,
       read_handler UUID_String foldUnicode c ctx
         (with_argument request "branch" v)
       = read_handler UUID_String foldUnicode c ctx request)
  ∧ "branch" ∉ declared_arguments readTool.
Proof.
  assert (∀ request',
       index (mcp.Arguments (mcp.params request')) "repository"
       = index (mcp.Arguments (mcp.params request)) "repository" →
       index (mcp.Arguments (mcp.params request')) "path"
       = index (mcp.Arguments (mcp.params request)) "path" →
       read_handler UUID_String foldUnicode c ctx request'
       = read_handler UUID_String foldUnicode c ctx request) as Hagree.
  { intros request' Hr Hp. unfold read_handler. now rewrite Hr, Hp. }
  split; [|split; [exact Hagree|split]].
  - intros a. unfold read_handler.
    destruct (assert_string (index _ "repository")) as [repo [|]];
      cbn [negb fst];
      [|go_unfold; cbn; rewrite !elem_of_cons, elem_of_nil;
        intros [[=]|[]]].
    destruct (assert_string (index _ "path")) as [path [|]];
      cbn [negb fst];
      [|go_unfold; cbn; rewrite !elem_of_cons, elem_of_nil;
        intros [[=]|[]]].
    go_unfold. rewrite getFileContent_unfold. cbv zeta.
    read_cases;
      rewrite ?elem_of_cons, ?elem_of_nil; intros H;
      destruct_or? H; try done; simplify_eq;
      (split; [reflexivity|]); eexists; reflexivity.
  - intros v. apply Hagree; unfold with_argument, index; cbn;
      now rewrite lookup_insert_ne by discriminate.
  - rewrite list_elem_of_In. cbn. intros [[=]|[[=]|[]]].
Qed.

(** C7.  When a read call reaches the file fetch and the upstream
    answers it, without error, with an item that has no content,
    [getFileContent] returns the empty string and no error, and the read
    tool answers with the empty text. *)
Theorem read_nil_content_is_success c ctx request repoName path a item :
  index (mcp.Arguments (mcp.params request)) "repository" = VString repoName →
  index (mcp.Arguments (mcp.params request)) "path" = VString path →
  EvGetItem a
    ∈ (getFileContent UUID_String foldUnicode c ctx repoName path).2 →
  git_Client.GetItem (AzureDevOpsClient.gitClient c) ctx a
  = (Some item, None) →
  GitItem.Content item = None →
  (getFileContent UUID_String foldUnicode c ctx repoName path).1
  = Done ("", None)
  ∧ (read_handler UUID_String foldUnicode c ctx request).1
    = Done (Some (mcp.NewToolResultText ""), None).
Proof.
  intros Hr Hp Hin Hitem Hnil.
  assert ((getFileContent UUID_String foldUnicode c ctx repoName path).1
          = Done ("", None)) as Hget.
  { revert Hin. rewrite getFileContent_unfold. cbv zeta.
    read_cases;
      rewrite ?elem_of_cons, ?elem_of_nil; intros H;
      destruct_or? H; try done; simplify_eq/=;
      match goal with
      | E : git_Client.GetItem _ _ _ = _ |- _ =>
          rewrite Hitem in E; simplify_eq/=
      end;
      rewrite Hnil; reflexivity. }
  split; [exact Hget|].
  unfold read_handler. rewrite Hr, Hp. cbn [assert_string negb]. go_unfold.
  destruct (getFileContent _ _ _ _ _ _) as [o tr]. cbn in Hget.
  subst o. reflexivity.
Qed.

(** C10.  Whenever [getFileContent] returns an error, the content it
    returns with it is the empty string. *)
Theorem read_error_has_empty_content c ctx repoName path content err tr :
  getFileContent UUID_String foldUnicode c ctx repoName path
  = (Done (content, Some err), tr) →
  content = "".
Proof.
  rewrite getFileContent_unfold. cbv zeta.
  read_cases; intros [= ? ? ?]; subst; reflexivity.
Qed.

(** *** The handlers *)

(** An argument fails the string assertion exactly when the map holds no
    string under its key: the key is absent, or bound to something else. *)
Lemma assert_string_fails (arguments : gmap string value) k :
  (assert_string (index arguments k)).2 = false ↔
  ∀ s, arguments !! k ≠ Some (VString s).
Proof.
  unfold index. destruct (arguments !! k) as [[]|]; cbn;
    split; try done; try (intros H; exfalso; eapply H; reflexivity).
Qed.

Lemma lacks_required_iff t (arguments : gmap string value) :
  lacks_required t arguments = true ↔
  ∃ k, k ∈ required_arguments t
       ∧ ∀ s, arguments !! k ≠ Some (VString s).
Proof.
  unfold lacks_required. rewrite existsb_exists.
  setoid_rewrite negb_true_iff. setoid_rewrite assert_string_fails.
  setoid_rewrite list_elem_of_In. reflexivity.
Qed.

(** What the search handler does, by the outcome of the search. *)
Lemma search_handler_unfold c ctx request :
  search_handler encodeValue c ctx request
  = match assert_string
            (index (mcp.Arguments (mcp.params request)) "query") with
    | (_, false) =>
        (Done (None, Some (errorString "query must be a string")),
         [EvLog "Query must be a string"])
    | (query, true) =>
        match searchRepository c ctx query
                (assert_string
                   (index (mcp.Arguments (mcp.params request)) "repo")).1
        with
        | (Done (results, None), tr) =>
            (Done (Some (mcp.NewToolResultText
                           (json_Marshal encodeValue results).1), None),
             tr)
        | (Done (_, Some err), tr) =>
            (Done (None,
                   Some (Errorf_w "error searching repositories: " err)),
             tr ++ [EvLog ("Error searching repositories: " +:+ Error err)])
        | (Panic, tr) => (Panic, tr)
        end
    end.
Proof.
  unfold search_handler.
  destruct (assert_string (index _ "query")) as [query [|]];
    [|reflexivity].
  cbn [negb].
  destruct (assert_string (index _ "repo")) as [repoName ok]. cbn [fst].
  go_unfold.
  destruct (searchRepository c ctx query repoName)
    as [[[results [err|]]|] tr]; try reflexivity.
  destruct results; cbn; now rewrite app_nil_r.
Qed.

(** C4.  A call that lacks a required argument of its tool (the argument
    is absent or is not a string) returns the error "<argument> must be a
    string" for such an argument, and its trace holds no upstream
    request. *)
Theorem missing_required_argument_is_rejected t c ctx request :
  lacks_required t (mcp.Arguments (mcp.params request)) = true →
  ∃ k tr,
    k ∈ required_arguments t
    ∧ (∀ s, mcp.Arguments (mcp.params request) !! k ≠ Some (VString s))
    ∧ handler UUID_String foldUnicode encodeValue t c ctx request
      = (Done (None, Some (errorString (k +:+ " must be a string"))), tr)
    ∧ upstream_calls tr = [].
Proof.
  unfold lacks_required. destruct t; cbn [required_arguments existsb handler].
  - rewrite orb_false_r, negb_true_iff. intros Hq.
    exists "query", [EvLog "Query must be a string"].
    split; [apply list_elem_of_In; cbn; tauto|].
    split; [now apply assert_string_fails|].
    split; [|reflexivity].
    unfold search_handler.
    destruct (assert_string (index _ "query")) as [query ok].
    cbn in Hq. subst ok. reflexivity.
  - rewrite orb_false_r, orb_true_iff, !negb_true_iff.
    destruct (assert_string
                (index (mcp.Arguments (mcp.params request)) "repository"))
      as [repo ok] eqn:Hrepo.
    destruct ok.
    + intros [[=]|Hp].
      exists "path", [EvLog "Path must be a string"].
      split; [apply list_elem_of_In; cbn; tauto|].
      split; [now apply assert_string_fails|].
      split; [|reflexivity].
      unfold read_handler. rewrite Hrepo. cbn [negb].
      destruct (assert_string (index _ "path")) as [path ok].
      cbn in Hp. subst ok. reflexivity.
    + intros _.
      exists "repository", [EvLog "Repository must be a string"].
      split; [apply list_elem_of_In; cbn; tauto|].
      split; [apply assert_string_fails; now rewrite Hrepo|].
      split; [|reflexivity].
      unfold read_handler. rewrite Hrepo. reflexivity.
Qed.

(** C8.  A search call with a string query and no string under "repo"
    (absent, or of another type) behaves exactly as the same call with
    the empty string under "repo": its first event is the upstream search
    request for the query with the project as the only filter, and it
    does not end in an argument error. *)
Theorem search_repo_defaults_to_empty c ctx request query :
  index (mcp.Arguments (mcp.params request)) "query" = VString query →
  (assert_string (index (mcp.Arguments (mcp.params request)) "repo")).2
  = false →
  search_handler encodeValue c ctx request
  = search_handler encodeValue c ctx
      (with_argument request "repo" (VString ""))
  ∧ CodeSearchRequest.Filters (search_request c query "")
    = Some {[ "Project" := [project_of c] ]}
  ∧ ∃ o rest,
      search_handler encodeValue c ctx request
      = (o, EvFetchCodeSearchResults (search_args c query "") :: rest)
      ∧ upstream_calls rest = []
      ∧ ∀ msg, o ≠ Done (None, Some (errorString msg)).
Proof.
  intros Hq Hrepo.
  assert ((assert_string
             (index (mcp.Arguments (mcp.params request)) "repo")).1 = "")
    as Hname.
  { revert Hrepo. unfold assert_string.
    destruct (index _ "repo"); cbn; congruence. }
  split; [|split; [reflexivity|]].
  - rewrite !search_handler_unfold. unfold with_argument, index. cbn.
    rewrite lookup_insert_eq, lookup_insert_ne by discriminate.
    unfold index in Hq, Hname. rewrite Hq, Hname. reflexivity.
  - rewrite search_handler_unfold, Hq, Hname. cbn [assert_string].
    rewrite searchRepository_unfold.
    destruct (search_Client.FetchCodeSearchResults _ _ _)
      as [[response|] [err|]];
      try (do 2 eexists; split; [reflexivity|]; split; [reflexivity|];
           intros msg [=]).
    destruct (CodeSearchResponse.Results response) as [hits|];
      try (do 2 eexists; split; [reflexivity|]; split; [reflexivity|];
           intros msg [=]).
    destruct (process_results_cases hits []) as [(new & Hp & _)|[Hp _]];
      rewrite Hp; do 2 eexists; (split; [reflexivity|]);
      (split; [reflexivity|]); intros msg [=].
Qed.

(** A hit that passes the guard without a project, or without the name of
    its repository or project, panics while its record is built. *)
Lemma record_of_unguarded h :
  incomplete h = false →
  CodeResult.Project h = None
  ∨ CodeResult.Project h = Some {| Project.Name := None |}
  ∨ (∃ repo, CodeResult.Repository h = Some repo
             ∧ Repository.Name repo = None) →
  record_of h = (Panic, []).
Proof.
  intros _ H.
  destruct (record_of_cases h) as [(r & _ & Hc)|[Hr _]]; [|exact Hr].
  destruct Hc as (? & ? & ? & ? & ? & ? & ? & ? & ? & ? & ? & ? & _).
  destruct H as [H|[H|(? & ? & H)]]; simplify_eq/=.
Qed.

End Properties.

(** ** The program on the fixtures *)

(** [encoding/json] writes the keys of a record in byte order. *)
Example record_keys_sorted :
  merge_sort key_le
    (map_to_list (Fixture.record "Svc" "/src/a.go" "a.go" "HCC"))
  = [("fileName", VString "a.go"); ("path", VString "/src/a.go");
     ("project", VString "HCC"); ("repository", VString "Svc")].
Proof. vm_compute. reflexivity. Qed.

(** A search with one complete hit answers with one record. *)
Example search_one_hit :
  search_handler Fixture.encodeValue
    (Fixture.search_client [Fixture.hit "Svc" "/src/a.go" "a.go" "HCC"]) tt
    (Fixture.request "search" [("query", VString "TODO"); ("repo", VString "")])
  = (Done (Some (mcp.NewToolResultText
                   ("[" +:+ marshal_map Fixture.encodeValue
                              (Fixture.record "Svc" "/src/a.go" "a.go" "HCC")
                    +:+ "]")), None),
     [EvFetchCodeSearchResults
        (search_args
           (Fixture.search_client [Fixture.hit "Svc" "/src/a.go" "a.go" "HCC"])
           "TODO" "")]).
Proof. vm_compute. reflexivity. Qed.

(** A read resolves "MyRepo" to the repository listed as "myrepo", the
    first of the two names that fold to it, and fetches from its id. *)
Example read_resolves_and_fetches :
  read_handler Fixture.UUID_String Fixture.foldUnicode
    (Fixture.read_client (Fixture.file (Some "hello"))) tt
    (Fixture.request "read"
       [("repository", VString "MyRepo"); ("path", VString "/a.txt")])
  = (Done (Some (mcp.NewToolResultText "hello"), None),
     [EvGetRepositories
        (repositories_args (Fixture.read_client (Fixture.file (Some "hello"))));
      EvGetItem
        (item_args (Fixture.read_client (Fixture.file (Some "hello")))
                   "id-2" "/a.txt")]).
Proof. vm_compute. reflexivity. Qed.

(** A fetch the upstream refuses comes back as a wrapped error; both
    [getFileContent] and the handler log it. *)
Example read_missing_path :
  read_handler Fixture.UUID_String Fixture.foldUnicode
    (Fixture.read_client (None, Some (errorString "not found"))) tt
    (Fixture.request "read"
       [("repository", VString "other"); ("path", VString "/missing.txt")])
  = (Done (None,
           Some (wrapError "error getting file content: not found"
                   (errorString "not found"))),
     [EvGetRepositories
        (repositories_args
           (Fixture.read_client (None, Some (errorString "not found"))));
      EvGetItem
        (item_args (Fixture.read_client (None, Some (errorString "not found")))
                   "id-1" "/missing.txt");
      EvLog "Error getting file content: not found";
      EvLog "Error getting file content: not found"]).
Proof. vm_compute. reflexivity. Qed.

(** A nameless repository ahead of the match stops the scan with a panic. *)
Example find_repo_nameless :
  find_repo Fixture.foldUnicode
    [{| GitRepository.Id := Some "id-0"; GitRepository.Name := None;
        GitRepository.DefaultBranch := None |};
     Fixture.repo "myrepo" "id-2"]
    "MyRepo"
  = (Panic, []).
Proof. reflexivity. Qed.

(** ** The properties on the fixtures *)

Lemma search_records_only_from_complete_hits_witness :
  searchRepository
    (Fixture.search_client
       [Fixture.hit "Svc" "/src/a.go" "a.go" "HCC"; Fixture.pathless_hit])
    tt "TODO" ""
  = (Done (Some [Fixture.record "Svc" "/src/a.go" "a.go" "HCC"], None),
     [EvFetchCodeSearchResults
        (search_args
           (Fixture.search_client
              [Fixture.hit "Svc" "/src/a.go" "a.go" "HCC";
               Fixture.pathless_hit])
           "TODO" "")]).
Proof.
  destruct (search_records_only_from_complete_hits
              (Fixture.search_client
                 [Fixture.hit "Svc" "/src/a.go" "a.go" "HCC";
                  Fixture.pathless_hit])
              tt "TODO" "" _ _ eq_refl eq_refl) as (Hiff & _ & _).
  apply Hiff. split; [reflexivity|]. split; [reflexivity|].
  eexists. split; [reflexivity|].
  constructor; [|constructor].
  do 6 eexists. repeat split; reflexivity.
Defined.


Lemma missing_required_argument_is_rejected_witness :
  lacks_required readTool
    (mcp.Arguments
       (mcp.params (Fixture.request "read" [("repository", VString "Svc")])))
  = true
  ∧ ∃ k tr,
      k ∈ required_arguments readTool
      ∧ handler Fixture.UUID_String Fixture.foldUnicode Fixture.encodeValue
          readTool (Fixture.read_client (Fixture.file (Some "hello"))) tt
          (Fixture.request "read" [("repository", VString "Svc")])
        = (Done (None, Some (errorString (k +:+ " must be a string"))), tr)
      ∧ upstream_calls tr = [].
Proof.
  split; [reflexivity|].
  destruct (missing_required_argument_is_rejected
              Fixture.UUID_String Fixture.foldUnicode Fixture.encodeValue
              readTool (Fixture.read_client (Fixture.file (Some "hello"))) tt
              (Fixture.request "read" [("repository", VString "Svc")])
              eq_refl) as (k & tr & Hk & _ & Hrun & Hup).
  exists k, tr. repeat split; assumption.
Defined.

Lemma empty_search_is_success_witness :
  search_handler Fixture.encodeValue (Fixture.search_client []) tt
    (Fixture.request "search" [("query", VString "TODO")])
  = (Done (Some (mcp.NewToolResultText "[]"), None),
     [EvFetchCodeSearchResults
        (search_args (Fixture.search_client []) "TODO" "")]).
Proof.
  refine (proj2 (empty_search_is_success
                   Fixture.encodeValue (Fixture.search_client []) tt
                   (Fixture.request "search" [("query", VString "TODO")])
                   "TODO" _ eq_refl eq_refl _)).
  right. reflexivity.
Defined.

Lemma read_nil_content_is_success_witness :
  (read_handler Fixture.UUID_String Fixture.foldUnicode
     (Fixture.read_client (Fixture.file None)) tt
     (Fixture.request "read"
        [("repository", VString "MyRepo"); ("path", VString "/docs")])).1
  = Done (Some (mcp.NewToolResultText ""), None).
Proof.
  refine (proj2 (read_nil_content_is_success
                   Fixture.UUID_String Fixture.foldUnicode
                   (Fixture.read_client (Fixture.file None)) tt
                   (Fixture.request "read"
                      [("repository", VString "MyRepo");
                       ("path", VString "/docs")])
                   "MyRepo" "/docs"
                   (item_args (Fixture.read_client (Fixture.file None))
                              "id-2" "/docs")
                   _ eq_refl eq_refl _ eq_refl eq_refl)).
  apply list_elem_of_In. right. left. reflexivity.
Defined.

Lemma search_repo_defaults_to_empty_witness :
  search_handler Fixture.encodeValue
    (Fixture.search_client [Fixture.hit "Svc" "/src/a.go" "a.go" "HCC"]) tt
    (Fixture.request "search" [("query", VString "TODO"); ("repo", VBool true)])
  = search_handler Fixture.encodeValue
      (Fixture.search_client [Fixture.hit "Svc" "/src/a.go" "a.go" "HCC"]) tt
      (with_argument
         (Fixture.request "search"
            [("query", VString "TODO"); ("repo", VBool true)])
         "repo" (VString "")).
Proof.
  exact (proj1 (search_repo_defaults_to_empty
                  Fixture.encodeValue
                  (Fixture.search_client
                     [Fixture.hit "Svc" "/src/a.go" "a.go" "HCC"])
                  tt
                  (Fixture.request "search"
                     [("query", VString "TODO"); ("repo", VBool true)])
                  "TODO" eq_refl eq_refl)).
Defined.

Lemma read_error_has_empty_content_witness :
  getFileContent Fixture.UUID_String Fixture.foldUnicode
    (Fixture.read_client (Fixture.file (Some "hello"))) tt "absent" "/a.txt"
  = (Done ("", Some (NotFound "absent")),
     [EvGetRepositories
        (repositories_args (Fixture.read_client (Fixture.file (Some "hello"))));
      EvLog "Repository not found: absent"])
  ∧ "" = "".
Proof.
  split; [reflexivity|].
  exact (read_error_has_empty_content
           Fixture.UUID_String Fixture.foldUnicode
           (Fixture.read_client (Fixture.file (Some "hello"))) tt
           "absent" "/a.txt" "" (NotFound "absent") _ eq_refl).
Defined.

(** C9.  A hit with repository, path and file name but no project passes
    the guard of the result loop; building its record dereferences the nil
    project, and the search panics after the upstream request. *)
Theorem search_panics_on_hit_without_project :
  incomplete Fixture.projectless_hit = false
  ∧ searchRepository (Fixture.search_client [Fixture.projectless_hit])
      tt "TODO" ""
    = (Panic,
       [EvFetchCodeSearchResults
          (search_args (Fixture.search_client [Fixture.projectless_hit])
                       "TODO" "")]).
Proof. split; reflexivity. Qed.

(** ** Further properties of the two operations *)

Section Further.
Context {context_Context UUID : Type}.
Variable UUID_String : UUID -> string.
Variable foldUnicode : string -> string -> bool.
Variable encodeValue : value -> string.

Abbreviation Client := (AzureDevOpsClient.t context_Context UUID).

Implicit Types (c : Client) (ctx : context_Context).
Implicit Types (hits : list CodeResult.t).
Implicit Types (repos pre post rest : list (GitRepository.t UUID)).
Implicit Types (repo : GitRepository.t UUID).

(** *** Search *)

(** X1.  When the upstream refuses a search, whatever response comes with
    the error is ignored: [searchRepository] returns a nil slice and the
    upstream error wrapped as "error searching code: ...", and the search
    tool returns no result and that error wrapped once more as "error
    searching repositories: ...".  One request was sent and each layer
    logged one line. *)
Theorem search_upstream_error_is_wrapped c ctx request query response err :
  index (mcp.Arguments (mcp.params request)) "query" = VString query →
  search_Client.FetchCodeSearchResults (AzureDevOpsClient.searchClient c) ctx
    (search_args c query
       (assert_string (index (mcp.Arguments (mcp.params request)) "repo")).1)
  = (response, Some err) →
  searchRepository c ctx query
    (assert_string (index (mcp.Arguments (mcp.params request)) "repo")).1
  = (Done (None, Some (wrapError ("error searching code: " +:+ Error err) err)),
     [EvFetchCodeSearchResults
        (search_args c query
           (assert_string
              (index (mcp.Arguments (mcp.params request)) "repo")).1);
      EvLog ("Error searching code: " +:+ Error err)])
  ∧ search_handler encodeValue c ctx request
    = (Done (None,
             Some (wrapError
                     ("error searching repositories: "
                      +:+ ("error searching code: " +:+ Error err))
                     (wrapError ("error searching code: " +:+ Error err) err))),
       [EvFetchCodeSearchResults
          (search_args c query
             (assert_string
                (index (mcp.Arguments (mcp.params request)) "repo")).1);
        EvLog ("Error searching code: " +:+ Error err);
        EvLog ("Error searching repositories: "
               +:+ ("error searching code: " +:+ Error err))]).
Proof.
  intros Hq Hup.
  assert (searchRepository c ctx query
    (assert_string (index (mcp.Arguments (mcp.params request)) "repo")).1
  = (Done (None, Some (wrapError ("error searching code: " +:+ Error err) err)),
     [EvFetchCodeSearchResults
        (search_args c query
           (assert_string
              (index (mcp.Arguments (mcp.params request)) "repo")).1);
      EvLog ("Error searching code: " +:+ Error err)])) as Hs.
  { rewrite searchRepository_unfold, Hup. now destruct response. }
  split; [exact Hs|].
  rewrite search_handler_unfold, Hq. cbn [assert_string]. now rewrite Hs.
Qed.

Lemma populated_kept hits : Forall populated hits → kept hits = hits.
Proof.
  induction 1 as [|h hits [r Hr] _ IH]; [reflexivity|].
  unfold kept in *. cbn. rewrite IH.
  destruct (incomplete h) eqn:Hh; [|reflexivity].
  apply incomplete_iff in Hh.
  destruct Hr as (? & ? & ? & ? & ? & ? & ? & ? & ? & ? & _).
  destruct Hh as [Hh|[Hh|Hh]]; congruence.
Qed.

(** X2.  When every hit of the upstream answer is fully populated, the
    search returns one record per hit, in upstream order: nothing is
    dropped and nothing panics. *)
Theorem search_keeps_every_populated_hit c ctx query repoName response hits :
  search_Client.FetchCodeSearchResults (AzureDevOpsClient.searchClient c) ctx
    (search_args c query repoName) = (Some response, None) →
  CodeSearchResponse.Results response = Some hits →
  Forall populated hits →
  ∃ rs,
    searchRepository c ctx query repoName
    = (Done (Some rs, None),
       [EvFetchCodeSearchResults (search_args c query repoName)])
    ∧ Forall2 complete_hit hits rs
    ∧ length rs = length hits.
Proof.
  intros Hup Hres Hpop.
  rewrite searchRepository_unfold, Hup, Hres.
  destruct (process_results_cases hits []) as [(new & Hp & Hf)|[Hp Hf]];
    rewrite Hp; rewrite (populated_kept hits Hpop) in Hf.
  - exists new. split; [reflexivity|]. split; [exact Hf|].
    symmetry. eapply Forall2_length, Hf.
  - exfalso. clear Hp Hup Hres.
    induction Hpop as [|h hits [r Hr] _ IH].
    + apply (Hf []). constructor.
    + apply IH. intros new Hn. apply (Hf (r :: new)). now constructor.
Qed.

Lemma complete_hit_shape h (r : gmap string value) :
  complete_hit h r →
  dom r = record_keys ∧ ∀ k v, r !! k = Some v → ∃ s, v = VString s.
Proof using Type.
  intros (? & ? & ? & ? & ? & ? & _ & _ & _ & _ & _ & _ & ->). split.
  - rewrite !dom_insert_L, dom_empty_L. unfold record_keys.
    apply set_eq. intros k.
    rewrite !elem_of_union, !elem_of_singleton, elem_of_empty.
    split; intros Hk; destruct_or? Hk; try done; subst; auto 10.
  - intros k v. rewrite !lookup_insert. repeat case_decide;
      rewrite ?lookup_empty; intros [= <-]; eexists; reflexivity.
Qed.

(** X3.  Every record a search returns has exactly the four keys
    "repository", "path", "fileName" and "project", each bound to a
    string. *)
Theorem search_records_have_four_string_fields
    c ctx query repoName rs err tr :
  searchRepository c ctx query repoName = (Done (Some rs, err), tr) →
  Forall (fun r : gmap string value =>
            dom r = record_keys ∧ ∀ k v, r !! k = Some v → ∃ s, v = VString s)
         rs.
Proof.
  rewrite searchRepository_unfold.
  destruct (search_Client.FetchCodeSearchResults _ _ _)
    as [[response|] [e|]]; try (intros [= <- <- <-]; constructor);
    try discriminate.
  destruct (CodeSearchResponse.Results response) as [hits|];
    [|intros [= <- <- <-]; constructor].
  destruct (process_results_cases hits []) as [(new & Hp & Hf)|[Hp _]];
    rewrite Hp; [|discriminate].
  intros [= <- <- <-]. cbn. clear Hp.
  induction Hf as [|h r hs new' Hc _ IH]; [constructor|].
  constructor; [eapply complete_hit_shape, Hc|exact IH].
Qed.

(** What the read handler does, by the outcome of the read. *)
Lemma read_handler_unfold c ctx request :
  read_handler UUID_String foldUnicode c ctx request
  = match assert_string
            (index (mcp.Arguments (mcp.params request)) "repository") with
    | (_, false) =>
        (Done (None, Some (errorString "repository must be a string")),
         [EvLog "Repository must be a string"])
    | (repo, true) =>
        match assert_string
                (index (mcp.Arguments (mcp.params request)) "path") with
        | (_, false) =>
            (Done (None, Some (errorString "path must be a string")),
             [EvLog "Path must be a string"])
        | (path, true) =>
            match getFileContent UUID_String foldUnicode c ctx repo path with
            | (Done (content, None), tr) =>
                (Done (Some (mcp.NewToolResultText content), None), tr)
            | (Done (_, Some err), tr) =>
                (Done (None,
                       Some (Errorf_w "error getting file content: " err)),
                 tr ++ [EvLog ("Error getting file content: " +:+ Error err)])
            | (Panic, tr) => (Panic, tr)
            end
        end
    end.
Proof.
  unfold read_handler.
  destruct (assert_string (index _ "repository")) as [repo [|]];
    [|reflexivity].
  cbn [negb].
  destruct (assert_string (index _ "path")) as [path [|]]; [|reflexivity].
  cbn [negb]. go_unfold.
  destruct (getFileContent UUID_String foldUnicode c ctx repo path)
    as [[[content [err|]]|] tr]; try reflexivity.
  cbn. now rewrite app_nil_r.
Qed.

(** [searchRepository] returns a slice or an error, never both, never
    neither. *)
Lemma searchRepository_slice_or_error c ctx query repoName returned err tr :
  searchRepository c ctx query repoName = (Done (returned, err), tr) →
  (returned = None ↔ is_Some err).
Proof.
  rewrite searchRepository_unfold.
  destruct (search_Client.FetchCodeSearchResults _ _ _)
    as [[response|] [e|]];
    try (intros [= <- <- <-]; split; [eauto|intros [? [=]]]; done).
  destruct (CodeSearchResponse.Results response) as [hits|].
  - destruct (process_results hits []) as [[rs|] tr'];
      intros [= <- <- <-]. split; [done|intros [? [=]]].
  - intros [= <- <- <-]. split; [done|intros [? [=]]].
Qed.

Ltac result_or_error :=
  let E := fresh "E" in
  intros E;
  first
    [ discriminate E
    | injection E as <- <- <-; split;
      [ split;
        [ intros H; first [discriminate H | eauto]
        | intros H; first [reflexivity | destruct H as [? [=]]] ]
      | intros result H;
        first [ discriminate H
              | injection H as <-; split;
                [reflexivity|eexists; reflexivity] ] ] ].

(** X4.  A tool call that returns hands back a result or an error, never
    both and never neither; and a result is always a single text item with
    the error flag clear: the handlers report every failure as an error,
    not inside a result. *)
Theorem handler_returns_result_or_error t c ctx request res err tr :
  handler UUID_String foldUnicode encodeValue t c ctx request
  = (Done (res, err), tr) →
  (res = None ↔ is_Some err)
  ∧ ∀ result, res = Some result →
      mcp.IsError result = false
      ∧ ∃ text, mcp.content result = [mcp.TextContent "text" text].
Proof.
  destruct t; cbn [handler].
  - rewrite search_handler_unfold.
    destruct (assert_string (index _ "query")) as [query [|]];
      [destruct (searchRepository _ _ _ _) as [[[returned [e|]]|] tr']|];
      result_or_error.
  - rewrite read_handler_unfold.
    destruct (assert_string (index _ "repository")) as [repo [|]];
      [destruct (assert_string (index _ "path")) as [path [|]];
       [destruct (getFileContent _ _ _ _ _ _) as [[[content [e|]]|] tr']|]|];
      result_or_error.
Qed.

(** X5.  The text of a successful search is always a JSON array (brackets
    around the comma-separated records), never [null]: on success
    [searchRepository] has returned a non-nil slice. *)
Theorem search_answer_is_an_array c ctx request result err tr :
  search_handler encodeValue c ctx request = (Done (Some result, err), tr) →
  ∃ query rs,
    index (mcp.Arguments (mcp.params request)) "query" = VString query
    ∧ searchRepository c ctx query
        (assert_string (index (mcp.Arguments (mcp.params request)) "repo")).1
      = (Done (Some rs, None), tr)
    ∧ result
      = mcp.NewToolResultText
          ("[" +:+ String.concat "," (List.map (marshal_map encodeValue) rs)
           +:+ "]").
Proof.
  rewrite search_handler_unfold.
  destruct (index (mcp.Arguments (mcp.params request)) "query")
    as [| | |query| |] eqn:Hq; cbn [assert_string]; try discriminate.
  destruct (searchRepository _ _ _ _) as [[[returned [e|]]|] tr'] eqn:Hs;
    try discriminate.
  intros [= <- <- <-].
  pose proof (searchRepository_slice_or_error _ _ _ _ _ _ _ Hs) as Hinv.
  destruct returned as [rs|]; [|destruct Hinv as [[? [=]] _]; reflexivity].
  exists query, rs. split; [reflexivity|]. split; [exact Hs|reflexivity].
Qed.

(** *** Read *)

(** X6.  When the upstream refuses the repository listing, the read stops
    there: [getFileContent] returns empty content and the upstream error
    itself, no scan and no fetch take place, and the read tool returns that
    error wrapped as "error getting file content: ...". *)
Theorem read_listing_error_passes_through
    c ctx request repoName path listing err :
  index (mcp.Arguments (mcp.params request)) "repository" = VString repoName →
  index (mcp.Arguments (mcp.params request)) "path" = VString path →
  git_Client.GetRepositories (AzureDevOpsClient.gitClient c) ctx
    (repositories_args c) = (listing, Some err) →
  getFileContent UUID_String foldUnicode c ctx repoName path
  = (Done ("", Some err),
     [EvGetRepositories (repositories_args c);
      EvLog ("Error getting repositories: " +:+ Error err)])
  ∧ read_handler UUID_String foldUnicode c ctx request
    = (Done (None,
             Some (wrapError ("error getting file content: " +:+ Error err)
                     err)),
       [EvGetRepositories (repositories_args c);
        EvLog ("Error getting repositories: " +:+ Error err);
        EvLog ("Error getting file content: " +:+ Error err)]).
Proof.
  intros Hr Hp Hup.
  assert (getFileContent UUID_String foldUnicode c ctx repoName path
  = (Done ("", Some err),
     [EvGetRepositories (repositories_args c);
      EvLog ("Error getting repositories: " +:+ Error err)])) as Hget.
  { rewrite getFileContent_unfold, Hup. now destruct listing. }
  split; [exact Hget|].
  rewrite read_handler_unfold, Hr, Hp. cbn [assert_string].
  now rewrite Hget.
Qed.

(** X7.  When a read reaches the file fetch and the upstream refuses it
    (a missing path, say), [getFileContent] returns empty content and the
    upstream error itself, whatever item came with it, and the read tool
    returns that error wrapped as "error getting file content: ...". *)
Theorem read_fetch_error_passes_through
    c ctx request repoName path a item err :
  index (mcp.Arguments (mcp.params request)) "repository" = VString repoName →
  index (mcp.Arguments (mcp.params request)) "path" = VString path →
  EvGetItem a ∈ (getFileContent UUID_String foldUnicode c ctx repoName path).2 →
  git_Client.GetItem (AzureDevOpsClient.gitClient c) ctx a = (item, Some err) →
  (getFileContent UUID_String foldUnicode c ctx repoName path).1
  = Done ("", Some err)
  ∧ (read_handler UUID_String foldUnicode c ctx request).1
    = Done (None,
            Some (wrapError ("error getting file content: " +:+ Error err)
                    err)).
Proof.
  intros Hr Hp Hin Hitem.
  assert ((getFileContent UUID_String foldUnicode c ctx repoName path).1
          = Done ("", Some err)) as Hget.
  { revert Hin. rewrite getFileContent_unfold. cbv zeta.
    read_cases;
      rewrite ?elem_of_cons, ?elem_of_nil; intros H;
      destruct_or? H; try done; simplify_eq/=;
      match goal with
      | E : git_Client.GetItem _ _ _ = _ |- _ =>
          rewrite Hitem in E; simplify_eq/=
      end;
      reflexivity. }
  split; [exact Hget|].
  rewrite read_handler_unfold, Hr, Hp. cbn [assert_string].
  destruct (getFileContent _ _ _ _ _ _) as [o tr]. cbn in Hget.
  subst o. reflexivity.
Qed.

(** X8.  When a read reaches the file fetch and the upstream answers with
    an item that has content, that content is returned unchanged, by
    [getFileContent] and as the text of the read tool's result. *)
Theorem read_returns_content_verbatim
    c ctx request repoName path a item content :
  index (mcp.Arguments (mcp.params request)) "repository" = VString repoName →
  index (mcp.Arguments (mcp.params request)) "path" = VString path →
  EvGetItem a ∈ (getFileContent UUID_String foldUnicode c ctx repoName path).2 →
  git_Client.GetItem (AzureDevOpsClient.gitClient c) ctx a
  = (Some item, None) →
  GitItem.Content item = Some content →
  (getFileContent UUID_String foldUnicode c ctx repoName path).1
  = Done (content, None)
  ∧ (read_handler UUID_String foldUnicode c ctx request).1
    = Done (Some (mcp.NewToolResultText content), None).
Proof.
  intros Hr Hp Hin Hitem Hcontent.
  assert ((getFileContent UUID_String foldUnicode c ctx repoName path).1
          = Done (content, None)) as Hget.
  { revert Hin. rewrite getFileContent_unfold. cbv zeta.
    read_cases;
      rewrite ?elem_of_cons, ?elem_of_nil; intros H;
      destruct_or? H; try done; simplify_eq/=;
      match goal with
      | E : git_Client.GetItem _ _ _ = _ |- _ =>
          rewrite Hitem in E; simplify_eq/=
      end;
      rewrite Hcontent; reflexivity. }
  split; [exact Hget|].
  rewrite read_handler_unfold, Hr, Hp. cbn [assert_string].
  destruct (getFileContent _ _ _ _ _ _) as [o tr]. cbn in Hget.
  subst o. reflexivity.
Qed.

Lemma find_repo_passes_over pre rest repoName :
  Forall (passed_over foldUnicode repoName) pre →
  find_repo foldUnicode (pre ++ rest) repoName
  = find_repo foldUnicode rest repoName.
Proof.
  induction 1 as [|other pre (n & Hn & Hfold) _ IH]; [reflexivity|].
  cbn. go_unfold. rewrite Hn. cbn. rewrite Hfold.
  rewrite IH. destruct (find_repo foldUnicode rest repoName) as [o tr].
  reflexivity.
Qed.

(** X9.  The scan stops at the first repository whose name folds to the
    target: whatever follows it in the listing (an exact match, a nameless
    entry) is never read, and the one fetch goes to the id of that first
    repository. *)
Theorem read_ignores_listing_after_first_match
    c ctx repoName path pre repo post name id :
  git_Client.GetRepositories (AzureDevOpsClient.gitClient c) ctx
    (repositories_args c) = (Some (pre ++ repo :: post), None) →
  Forall (passed_over foldUnicode repoName) pre →
  GitRepository.Name repo = Some name →
  EqualFold foldUnicode name repoName = true →
  GitRepository.Id repo = Some id →
  find_repo foldUnicode (pre ++ repo :: post) repoName
  = (Done (Some repo), [])
  ∧ upstream_calls
      (getFileContent UUID_String foldUnicode c ctx repoName path).2
    = [EvGetRepositories (repositories_args c);
       EvGetItem (item_args c (UUID_String id) path)].
Proof.
  intros Hup Hpre Hname Hfold Hid.
  assert (find_repo foldUnicode (pre ++ repo :: post) repoName
          = (Done (Some repo), [])) as Hfind.
  { rewrite find_repo_passes_over by exact Hpre.
    cbn. go_unfold. rewrite Hname. cbn. now rewrite Hfold. }
  split; [exact Hfind|].
  rewrite getFileContent_unfold, Hup, Hfind. cbn. rewrite Hid.
  destruct (git_Client.GetItem _ _ _) as [[item|] [err|]]; reflexivity.
Qed.

(** X10.  A repository without a name, met before any match, stops the
    read with a panic right after the listing request: no error is
    returned and no fetch is sent. *)
Theorem read_panics_on_nameless_repository
    c ctx repoName path pre repo post :
  git_Client.GetRepositories (AzureDevOpsClient.gitClient c) ctx
    (repositories_args c) = (Some (pre ++ repo :: post), None) →
  Forall (passed_over foldUnicode repoName) pre →
  GitRepository.Name repo = None →
  getFileContent UUID_String foldUnicode c ctx repoName path
  = (Panic, [EvGetRepositories (repositories_args c)]).
Proof.
  intros Hup Hpre Hname.
  rewrite getFileContent_unfold, Hup.
  rewrite find_repo_passes_over by exact Hpre.
  cbn. go_unfold. now rewrite Hname.
Qed.

(** X11.  An upstream answer that carries neither a value nor an error is
    dereferenced unchecked: a nil listing, or a nil item from a fetch the
    read has sent, makes [getFileContent] panic. *)
Theorem read_panics_on_nil_answer c ctx repoName path :
  git_Client.GetRepositories (AzureDevOpsClient.gitClient c) ctx
    (repositories_args c) = (None, None)
  ∨ (∃ a,
       EvGetItem a
         ∈ (getFileContent UUID_String foldUnicode c ctx repoName path).2
       ∧ git_Client.GetItem (AzureDevOpsClient.gitClient c) ctx a
         = (None, None)) →
  (getFileContent UUID_String foldUnicode c ctx repoName path).1 = Panic.
Proof.
  intros [Hup|(a & Hin & Hitem)].
  - now rewrite getFileContent_unfold, Hup.
  - revert Hin. rewrite getFileContent_unfold. cbv zeta.
    read_cases;
      rewrite ?elem_of_cons, ?elem_of_nil; intros H;
      destruct_or? H; try done; simplify_eq/=;
      match goal with
      | E : git_Client.GetItem _ _ _ = _ |- _ =>
          rewrite Hitem in E; simplify_eq/=
      end;
      reflexivity.
Qed.

(** X12.  The upstream requests of a tool call follow a fixed protocol.
    A search call sends nothing or exactly one search request.  A read call
    sends nothing, or the repository listing alone, or the listing followed
    by one file fetch: never a fetch without the listing before it, and
    neither tool ever sends the other's requests. *)
Theorem handler_upstream_protocol t c ctx request :
  match t with
  | searchTool =>
      upstream_calls
        (handler UUID_String foldUnicode encodeValue t c ctx request).2 = []
      ∨ ∃ query repoName,
          upstream_calls
            (handler UUID_String foldUnicode encodeValue t c ctx request).2
          = [EvFetchCodeSearchResults (search_args c query repoName)]
  | readTool =>
      upstream_calls
        (handler UUID_String foldUnicode encodeValue t c ctx request).2 = []
      ∨ upstream_calls
          (handler UUID_String foldUnicode encodeValue t c ctx request).2
        = [EvGetRepositories (repositories_args c)]
      ∨ ∃ repoID path,
          upstream_calls
            (handler UUID_String foldUnicode encodeValue t c ctx request).2
          = [EvGetRepositories (repositories_args c);
             EvGetItem (item_args c repoID path)]
  end.
Proof.
  destruct t; cbn [handler].
  - rewrite search_handler_unfold.
    destruct (assert_string (index _ "query")) as [query [|]];
      [|left; reflexivity].
    right. exists query. eexists.
    rewrite searchRepository_unfold.
    destruct (search_Client.FetchCodeSearchResults _ _ _)
      as [[response|] [err|]]; try reflexivity.
    destruct (CodeSearchResponse.Results response) as [hits|];
      [|reflexivity].
    destruct (process_results_cases hits []) as [(new & Hp & _)|[Hp _]];
      rewrite Hp; reflexivity.
  - rewrite read_handler_unfold.
    destruct (assert_string (index _ "repository")) as [repo [|]];
      [|left; reflexivity].
    destruct (assert_string (index _ "path")) as [path [|]];
      [|left; reflexivity].
    right. rewrite getFileContent_unfold. cbv zeta.
    read_cases; try (left; reflexivity);
      right; do 2 eexists; reflexivity.
Qed.

(** *** Name matching *)

Lemma lor_below_128 (a b : N) :
  (a < 128 → b < 128 → N.lor a b < 128)%N.
Proof.
  intros Ha Hb.
  apply N.div_small_iff with (b := (2 ^ 7)%N); [discriminate|].
  rewrite <- N.shiftr_div_pow2, N.shiftr_lor, !N.shiftr_div_pow2.
  rewrite (N.div_small a), (N.div_small b); [reflexivity|exact Hb|exact Ha].
Qed.

Lemma N_of_lower_byte a :
  N_of_ascii (lower_byte a)
  = (if (65 <=? N_of_ascii a)%N && (N_of_ascii a <=? 90)%N
     then N_of_ascii a + 32 else N_of_ascii a)%N.
Proof.
  unfold lower_byte.
  destruct ((65 <=? N_of_ascii a)%N && (N_of_ascii a <=? 90)%N) eqn:Hup;
    [|reflexivity].
  apply andb_true_iff in Hup as [H1 H2].
  apply N.leb_le in H1, H2.
  apply N_ascii_embedding. lia.
Qed.

Lemma lower_byte_eq a b :
  lower_byte a = lower_byte b ↔
  N_of_ascii (lower_byte a) = N_of_ascii (lower_byte b).
Proof.
  split; [now intros ->|]. intros H.
  rewrite <- (ascii_N_embedding (lower_byte a)), H.
  apply ascii_N_embedding.
Qed.

(** X13.  On names made of ASCII bytes the comparison used by the scan is
    equality up to the case of the letters A to Z, whatever the Unicode
    tail of [strings.EqualFold] does. *)
Theorem EqualFold_ascii_is_case_insensitive_equality s t :
  ascii_only s = true →
  ascii_only t = true →
  EqualFold foldUnicode s t = true ↔ to_lower s = to_lower t.
Proof.
  revert t. induction s as [|a s IH]; intros [|b t]; cbn;
    try (intros _ _; split; [reflexivity|reflexivity]);
    try (intros _ _; split; discriminate).
  unfold ascii_byte. rewrite !andb_true_iff, !N.ltb_lt.
  intros [Ha Hs] [Hb Ht].
  pose proof (lor_below_128 _ _ Ha Hb) as Hlor.
  apply N.leb_gt in Hlor. rewrite Hlor.
  assert (String (lower_byte a) (to_lower s)
          = String (lower_byte b) (to_lower t)
          ↔ N_of_ascii (lower_byte a) = N_of_ascii (lower_byte b)
            ∧ to_lower s = to_lower t) as ->.
  { rewrite <- lower_byte_eq. split; [intros [= -> ->]|intros [-> ->]]; done. }
  rewrite !N_of_lower_byte. specialize (IH t Hs Ht).
  destruct (N.eqb_spec (N_of_ascii a) (N_of_ascii b)) as [Heq|Hne].
  - rewrite Heq, IH. tauto.
  - destruct ((65 <=? N.min (N_of_ascii a) (N_of_ascii b))%N
              && (N.min (N_of_ascii a) (N_of_ascii b) <=? 90)%N
              && (N.max (N_of_ascii a) (N_of_ascii b)
                  =? N.min (N_of_ascii a) (N_of_ascii b) + 32)%N) eqn:Hc.
    + apply andb_true_iff in Hc as [Hc H3].
      apply andb_true_iff in Hc as [H1 H2].
      apply N.leb_le in H1, H2. apply N.eqb_eq in H3.
      rewrite IH. split; [intros H; split; [|exact H]|tauto].
      repeat match goal with
             | |- context [if ?x then _ else _] =>
                 let E := fresh in
                 destruct x eqn:E;
                 rewrite ?andb_true_iff, ?andb_false_iff, ?N.leb_le,
                   ?N.leb_gt in E
             end; lia.
    + split; [discriminate|]. intros [H _]. exfalso.
      rewrite !andb_false_iff, !N.leb_gt, N.eqb_neq in Hc.
      revert H.
      repeat match goal with
             | |- context [if ?x then _ else _] =>
                 let E := fresh in
                 destruct x eqn:E;
                 rewrite ?andb_true_iff, ?andb_false_iff, ?N.leb_le,
                   ?N.leb_gt in E
             end; lia.
Qed.

End Further.

(** ** Properties of start-up *)

Ltac boot_unfold :=
  unfold boot_bind, boot_emit, boot_ret in *.

Section Boot.
Context {context_Context UUID : Type}.

Abbreviation Process := (Process.t context_Context UUID).
Abbreviation Client := (AzureDevOpsClient.t context_Context UUID).

Implicit Types (p : Process) (client : Client).

(** What [NewAzureDevOpsClient] does, by the answers of its surroundings. *)
Lemma NewAzureDevOpsClient_unfold p :
  NewAzureDevOpsClient p
  = let setup :=
      [BvSetConfigName "config"; BvSetConfigType "yaml"; BvAddConfigPath ".";
       BvReadInConfig] in
    match Process.ReadInConfig p with
    | Some e =>
        ((None, Some (Errorf_w "error reading config: " e)),
         setup ++ [BvLog ("Error reading config: " +:+ Error e)])
    | None =>
        match (Process.Unmarshal p).2 with
        | Some e =>
            ((None, Some (Errorf_w "error unmarshaling config: " e)),
             setup ++ [BvUnmarshal;
                       BvLog ("Error unmarshaling config: " +:+ Error e)])
        | None =>
            if bool_decide (effective_PAT p = "") then
              ((None, Some (errorString "Azure DevOps PAT is required")),
               setup ++ [BvUnmarshal; BvGetenv "AZURE_DEVOPS_PAT";
                         BvLog "Azure DevOps PAT is required"])
            else
              match Process.git_NewClient p (Process.Background p)
                      (startup_connection p) with
              | inr e =>
                  ((None, Some (Errorf_w "failed to create git client: " e)),
                   setup ++ [BvUnmarshal; BvGetenv "AZURE_DEVOPS_PAT";
                             BvGitNewClient (startup_connection p);
                             BvLog ("Failed to create git client: "
                                    +:+ Error e)])
              | inl gitClient =>
                  match Process.search_NewClient p (Process.Background p)
                          (startup_connection p) with
                  | inr e =>
                      ((None,
                        Some (Errorf_w "failed to create search client: " e)),
                       setup ++ [BvUnmarshal; BvGetenv "AZURE_DEVOPS_PAT";
                                 BvGitNewClient (startup_connection p);
                                 BvSearchNewClient (startup_connection p);
                                 BvLog ("Failed to create search client: "
                                        +:+ Error e)])
                  | inl searchClient =>
                      ((Some {| AzureDevOpsClient.config :=
                                  set_PAT (Process.Unmarshal p).1
                                          (effective_PAT p);
                                AzureDevOpsClient.gitClient := gitClient;
                                AzureDevOpsClient.searchClient :=
                                  searchClient |},
                        None),
                       setup ++ [BvUnmarshal; BvGetenv "AZURE_DEVOPS_PAT";
                                 BvGitNewClient (startup_connection p);
                                 BvSearchNewClient (startup_connection p)])
                  end
              end
        end
    end.
Proof.
  unfold NewAzureDevOpsClient, startup_connection, effective_PAT. boot_unfold.
  destruct (Process.ReadInConfig p) as [e|]; [reflexivity|].
  destruct (Process.Unmarshal p) as [[[org proj pat ver] srv] [e|]];
    [reflexivity|].
  cbn.
  destruct (decide (Process.Getenv p "AZURE_DEVOPS_PAT" = "")) as [He|He].
  - rewrite He.
    rewrite (bool_decide_eq_true_2 ("" = "")) by reflexivity.
    rewrite (bool_decide_eq_false_2 ("" ≠ "")) by (intros H; now apply H).
    cbn.
    destruct (decide (pat = "")) as [Hp|Hp].
    + now rewrite !(bool_decide_eq_true_2 _ Hp).
    + rewrite !(bool_decide_eq_false_2 _ Hp).
      destruct (Process.git_NewClient _ _ _); [|reflexivity].
      destruct (Process.search_NewClient _ _ _); reflexivity.
  - rewrite (bool_decide_eq_true_2 _ He), !(bool_decide_eq_false_2 _ He).
    cbn. rewrite ?(bool_decide_eq_false_2 _ He).
    destruct (Process.git_NewClient _ _ _);
      rewrite ?(bool_decide_eq_false_2 _ He); [|reflexivity].
    destruct (Process.search_NewClient _ _ _);
      rewrite ?(bool_decide_eq_false_2 _ He); reflexivity.
Qed.

(** Case analysis on the answers start-up meets, in the order it meets
    them. *)
Ltac boot_cases p :=
  rewrite ?NewAzureDevOpsClient_unfold; cbv zeta;
  destruct (Process.ReadInConfig p) as [?e|]; cbn;
  try (destruct (Process.Unmarshal p).2 as [?e|]; cbn;
       try (case_bool_decide; cbn;
            try (destruct (Process.git_NewClient p _ _) as [?g|?e] eqn:?; cbn;
                 try (destruct (Process.search_NewClient p _ _)
                        as [?s|?e] eqn:?; cbn)))).

Lemma set_PAT_fields (config : Config.t) pat :
  AzureDevOpsConfig.PAT (Config.AzureDevOps (set_PAT config pat)) = pat
  ∧ AzureDevOpsConfig.Organization (Config.AzureDevOps (set_PAT config pat))
    = AzureDevOpsConfig.Organization (Config.AzureDevOps config)
  ∧ AzureDevOpsConfig.Project (Config.AzureDevOps (set_PAT config pat))
    = AzureDevOpsConfig.Project (Config.AzureDevOps config)
  ∧ AzureDevOpsConfig.APIVersion (Config.AzureDevOps (set_PAT config pat))
    = AzureDevOpsConfig.APIVersion (Config.AzureDevOps config)
  ∧ Config.Server (set_PAT config pat) = Config.Server config.
Proof. repeat split. Qed.

(** Start-up returns a client exactly when it returns no error. *)
Lemma NewAzureDevOpsClient_client_or_error p :
  (NewAzureDevOpsClient p).1.1 = None ↔ is_Some (NewAzureDevOpsClient p).1.2.
Proof.
  boot_cases p; split; try (intros _; eauto; done); try done;
    intros [? [=]].
Qed.

(** The client start-up returns carries the server section as loaded. *)
Lemma NewAzureDevOpsClient_server p client err tr :
  NewAzureDevOpsClient p = ((Some client, err), tr) →
  Config.Server (AzureDevOpsClient.config client)
  = Config.Server (Process.Unmarshal p).1.
Proof. boot_cases p; intros [= <- <- <-]. reflexivity. Qed.

(** X14.  The client start-up returns works with the token of the
    environment variable AZURE_DEVOPS_PAT when that is set and not empty,
    and with the token of the configuration file otherwise; that token is
    not empty; and the override touches nothing else: organization,
    project, API version and the server section are as loaded. *)
Theorem startup_token_precedence p client err tr :
  NewAzureDevOpsClient p = ((Some client, err), tr) →
  err = None
  ∧ AzureDevOpsConfig.PAT
      (Config.AzureDevOps (AzureDevOpsClient.config client))
    = effective_PAT p
  ∧ effective_PAT p ≠ ""
  ∧ AzureDevOpsConfig.Organization
      (Config.AzureDevOps (AzureDevOpsClient.config client))
    = AzureDevOpsConfig.Organization
        (Config.AzureDevOps (Process.Unmarshal p).1)
  ∧ AzureDevOpsConfig.Project
      (Config.AzureDevOps (AzureDevOpsClient.config client))
    = AzureDevOpsConfig.Project (Config.AzureDevOps (Process.Unmarshal p).1)
  ∧ AzureDevOpsConfig.APIVersion
      (Config.AzureDevOps (AzureDevOpsClient.config client))
    = AzureDevOpsConfig.APIVersion
        (Config.AzureDevOps (Process.Unmarshal p).1)
  ∧ Config.Server (AzureDevOpsClient.config client)
    = Config.Server (Process.Unmarshal p).1.
Proof.
  boot_cases p; intros [= <- <- <-]. cbn.
  split; [reflexivity|]. split; [reflexivity|]. split; [assumption|].
  repeat split.
Qed.

(** X15.  Start-up fails with "Azure DevOps PAT is required" exactly when
    the configuration was read and decoded and neither the environment nor
    the file gives a token; and without a token no client is constructed. *)
Theorem startup_requires_token p :
  ((NewAzureDevOpsClient p).1
   = (None, Some (errorString "Azure DevOps PAT is required"))
   ↔ Process.ReadInConfig p = None
     ∧ (Process.Unmarshal p).2 = None
     ∧ effective_PAT p = "")
  ∧ (effective_PAT p = "" →
     List.filter is_constructor_event (NewAzureDevOpsClient p).2 = []).
Proof.
  split.
  - boot_cases p; split; try discriminate; try (intros (? & ? & ?); done);
      try (intros _; repeat split; assumption).
  - intros Hpat. boot_cases p; try reflexivity; contradiction.
Qed.

(** X16.  Whenever start-up constructs a client, it does so from the one
    connection to "https://dev.azure.com/<organization>" with the token in
    force, which is not empty; the git client is constructed first, and the
    search client only once the git client exists, from the same
    connection. *)
Theorem startup_clients_share_one_connection p conn :
  BvGitNewClient conn ∈ (NewAzureDevOpsClient p).2
  ∨ BvSearchNewClient conn ∈ (NewAzureDevOpsClient p).2 →
  conn = startup_connection p
  ∧ effective_PAT p ≠ ""
  ∧ (List.filter is_constructor_event (NewAzureDevOpsClient p).2
     = [BvGitNewClient conn]
     ∨ List.filter is_constructor_event (NewAzureDevOpsClient p).2
       = [BvGitNewClient conn; BvSearchNewClient conn]
       ∧ ∃ gitClient,
           Process.git_NewClient p (Process.Background p) conn
           = inl gitClient).
Proof.
  boot_cases p;
    rewrite ?elem_of_cons, ?elem_of_nil; intros Hin;
    destruct_or? Hin; try done; simplify_eq;
    (split; [reflexivity|]); (split; [assumption|]);
    first [left; reflexivity | right; split; [reflexivity|eauto]].
Qed.

(** X17.  Start-up returns a client or an error, never both and never
    neither; and whenever it returns an error, the last thing it did was to
    log a line. *)
Theorem startup_returns_client_or_error p :
  ((NewAzureDevOpsClient p).1.1 = None ↔ is_Some (NewAzureDevOpsClient p).1.2)
  ∧ (is_Some (NewAzureDevOpsClient p).1.2 →
     ∃ line, last (NewAzureDevOpsClient p).2 = Some (BvLog line)).
Proof.
  boot_cases p; (split; [split|]);
    try (intros _; eauto; done); try done;
    try (intros [? [=]]); eauto.
Qed.

(** X18.  A configuration file that cannot be read, or cannot be decoded,
    stops start-up on the spot: the error returned wraps the cause, the
    environment is not consulted and no client is constructed. *)
Theorem startup_stops_on_bad_configuration p e :
  Process.ReadInConfig p = Some e
  ∨ (Process.ReadInConfig p = None ∧ (Process.Unmarshal p).2 = Some e) →
  (∃ prefix,
     (NewAzureDevOpsClient p).1
     = (None, Some (wrapError (prefix +:+ Error e) e)))
  ∧ (BvGetenv "AZURE_DEVOPS_PAT" ∉ (NewAzureDevOpsClient p).2)
  ∧ List.filter is_constructor_event (NewAzureDevOpsClient p).2 = [].
Proof.
  rewrite NewAzureDevOpsClient_unfold. cbv zeta.
  intros [Hr|[Hr Hu]]; rewrite Hr; [|rewrite Hu]; cbn;
    (split; [eexists; reflexivity|]); (split; [|reflexivity]);
    rewrite ?elem_of_cons, elem_of_nil; intros H; destruct_or? H; done.
Qed.

(** Start-up proper touches no server. *)
Lemma startup_no_server_event p :
  List.filter is_server_event (NewAzureDevOpsClient p).2 = [].
Proof. boot_cases p; reflexivity. Qed.

(** What [main] does, by the outcome of start-up. *)
Lemma main_unfold p :
  main p
  = match (NewAzureDevOpsClient p).1 with
    | (_, Some err) =>
        (MainFatal,
         (NewAzureDevOpsClient p).2
         ++ [BvLog ("Failed to create Azure DevOps client: " +:+ Error err)])
    | (None, None) =>
        (MainPanic,
         (NewAzureDevOpsClient p).2
         ++ [BvNewMCPServer "Azure DevOps MCP Server" "1.0.0"
               [WithResourceCapabilities true true;
                WithPromptCapabilities true;
                WithToolCapabilities true];
             BvAddTool searchTool; BvAddTool readTool])
    | (Some client, None) =>
        (match Process.Start p (host_port client) with
         | Some _ => MainFatal
         | None => MainReturned
         end,
         (NewAzureDevOpsClient p).2
         ++ ([BvNewMCPServer "Azure DevOps MCP Server" "1.0.0"
                [WithResourceCapabilities true true;
                 WithPromptCapabilities true;
                 WithToolCapabilities true];
              BvAddTool searchTool; BvAddTool readTool;
              BvNewSSEServer ("http://" +:+ host_port client);
              BvLog ("SSE server listening on " +:+ host_port client);
              BvStart (host_port client)]
             ++ match Process.Start p (host_port client) with
                | Some err => [BvLog ("Server error: " +:+ Error err)]
                | None => []
                end))
    end.
Proof.
  unfold main. boot_unfold.
  destruct (NewAzureDevOpsClient p) as [[[client|] [err|]] tr]; cbn;
    try reflexivity.
  destruct (Process.Start p (host_port client)); cbn;
    rewrite ?app_nil_r; reflexivity.
Qed.

(** X19.  When start-up fails, main logs "Failed to create Azure DevOps
    client: <error>" and exits: no server is created, no tool is registered
    and nothing listens. *)
Theorem main_exits_when_startup_fails p err :
  (NewAzureDevOpsClient p).1.2 = Some err →
  main p
  = (MainFatal,
     (NewAzureDevOpsClient p).2
     ++ [BvLog ("Failed to create Azure DevOps client: " +:+ Error err)])
  ∧ List.filter is_server_event (main p).2 = [].
Proof.
  intros Herr.
  assert (main p
  = (MainFatal,
     (NewAzureDevOpsClient p).2
     ++ [BvLog ("Failed to create Azure DevOps client: " +:+ Error err)]))
    as Hmain.
  { rewrite main_unfold.
    destruct (NewAzureDevOpsClient p) as [[client e] tr]. cbn in Herr.
    subst e. now destruct client. }
  split; [exact Hmain|].
  rewrite Hmain. cbn [snd]. rewrite List.filter_app, startup_no_server_event.
  reflexivity.
Qed.

(** X20.  Main never dereferences a nil client: it returns, or it exits
    through a fatal log line. *)
Theorem main_never_panics p :
  (main p).1 = MainReturned ∨ (main p).1 = MainFatal.
Proof.
  rewrite main_unfold.
  pose proof (NewAzureDevOpsClient_client_or_error p) as Hinv.
  destruct (NewAzureDevOpsClient p) as [[[client|] [err|]] tr]; cbn in *;
    try (right; reflexivity).
  - destruct (Process.Start p (host_port client)); [right|left]; reflexivity.
  - destruct Hinv as [Hinv _]. destruct (Hinv eq_refl) as [? [=]].
Qed.

(** X21.  When main starts listening, start-up has succeeded, the address
    is "<host>:<port>" of the server section of the configuration file
    (the token override does not reach it), and the server part of the
    trace is: create the server, register the search tool, register the
    read tool, create the SSE server at "http://<host>:<port>", start it
    once. *)
Theorem main_listens_on_configured_address p addr :
  BvStart addr ∈ (main p).2 →
  (NewAzureDevOpsClient p).1.2 = None
  ∧ addr
    = ServerConfig.Host (Config.Server (Process.Unmarshal p).1)
      +:+ (":"
           +:+ itoa (ServerConfig.Port
                       (Config.Server (Process.Unmarshal p).1)))
  ∧ List.filter is_server_event (main p).2
    = [BvNewMCPServer "Azure DevOps MCP Server" "1.0.0"
         [WithResourceCapabilities true true;
          WithPromptCapabilities true;
          WithToolCapabilities true];
       BvAddTool searchTool; BvAddTool readTool;
       BvNewSSEServer ("http://" +:+ addr);
       BvStart addr].
Proof.
  rewrite main_unfold.
  pose proof (startup_no_server_event p) as Hnone.
  assert (∀ a, BvStart a ∉ (NewAzureDevOpsClient p).2) as Hstart.
  { intros a Ha. apply list_elem_of_In in Ha.
    assert (In (BvStart a)
              (List.filter is_server_event (NewAzureDevOpsClient p).2)) as Hf
      by (apply List.filter_In; split; [exact Ha|reflexivity]).
    rewrite Hnone in Hf. destruct Hf. }
  destruct (NewAzureDevOpsClient p) as [[[client|] [err|]] tr] eqn:Hnew;
    cbn [fst snd] in *.
  - rewrite elem_of_app, !elem_of_cons, elem_of_nil.
    intros [H|H]; [destruct (Hstart _ H)|destruct_or? H; done].
  - pose proof (NewAzureDevOpsClient_server p client None tr Hnew) as Hsrv.
    assert (host_port client
            = ServerConfig.Host (Config.Server (Process.Unmarshal p).1)
              +:+ (":"
                   +:+ itoa (ServerConfig.Port
                               (Config.Server (Process.Unmarshal p).1))))
      as Haddr
      by (unfold host_port; now rewrite Hsrv).
    rewrite !elem_of_app, !elem_of_cons, elem_of_nil.
    intros H.
    assert (addr = host_port client) as ->.
    { destruct H as [H|[H|H]].
      - destruct (Hstart _ H).
      - destruct_or? H; try done. now injection H.
      - destruct (Process.Start p (host_port client));
          rewrite ?elem_of_cons, ?elem_of_nil in H; destruct_or? H; done. }
    split; [reflexivity|]. split; [exact Haddr|].
    rewrite !List.filter_app, Hnone.
    destruct (Process.Start p (host_port client)); reflexivity.
  - rewrite elem_of_app, !elem_of_cons, elem_of_nil.
    intros [H|H]; [destruct (Hstart _ H)|destruct_or? H; done].
  - rewrite elem_of_app, !elem_of_cons, elem_of_nil.
    intros [H|H]; [destruct (Hstart _ H)|destruct_or? H; done].
Qed.

End Boot.

(** ** The further properties on the fixtures *)

Lemma search_upstream_error_is_wrapped_witness :
  (search_handler Fixture.encodeValue
     (Fixture.client (None, Some (errorString "boom"))
        Fixture.unused Fixture.unused)
     tt (Fixture.request "search" [("query", VString "TODO")])).1
  = Done (None,
          Some (wrapError
                  "error searching repositories: error searching code: boom"
                  (wrapError "error searching code: boom"
                     (errorString "boom")))).
Proof.
  exact (f_equal fst
           (proj2 (search_upstream_error_is_wrapped
                     Fixture.encodeValue
                     (Fixture.client (None, Some (errorString "boom"))
                        Fixture.unused Fixture.unused)
                     tt (Fixture.request "search" [("query", VString "TODO")])
                     "TODO" None (errorString "boom") eq_refl eq_refl))).
Defined.

Lemma search_keeps_every_populated_hit_witness :
  ∃ rs,
    searchRepository
      (Fixture.search_client
         [Fixture.hit "Svc" "/src/a.go" "a.go" "HCC";
          Fixture.hit "Web" "/b.go" "b.go" "HCC"])
      tt "TODO" ""
    = (Done (Some rs, None),
       [EvFetchCodeSearchResults
          (search_args
             (Fixture.search_client
                [Fixture.hit "Svc" "/src/a.go" "a.go" "HCC";
                 Fixture.hit "Web" "/b.go" "b.go" "HCC"])
             "TODO" "")])
    ∧ length rs = 2%nat.
Proof.
  assert (Forall populated
            [Fixture.hit "Svc" "/src/a.go" "a.go" "HCC";
             Fixture.hit "Web" "/b.go" "b.go" "HCC"]) as Hpop
    by (repeat constructor; eexists; do 6 eexists; repeat split; reflexivity).
  destruct (search_keeps_every_populated_hit
              (Fixture.search_client
                 [Fixture.hit "Svc" "/src/a.go" "a.go" "HCC";
                  Fixture.hit "Web" "/b.go" "b.go" "HCC"])
              tt "TODO" "" _ _ eq_refl eq_refl Hpop) as (rs & Hrun & _ & Hlen).
  exists rs. split; assumption.
Defined.

Lemma search_records_have_four_string_fields_witness :
  Forall (fun r : gmap string value =>
            dom r = record_keys ∧ ∀ k v, r !! k = Some v → ∃ s, v = VString s)
         [Fixture.record "Svc" "/src/a.go" "a.go" "HCC"].
Proof.
  exact (search_records_have_four_string_fields
           (Fixture.search_client [Fixture.hit "Svc" "/src/a.go" "a.go" "HCC"])
           tt "TODO" "" _ None _ eq_refl).
Defined.

Lemma handler_returns_result_or_error_witness :
  (Some (mcp.NewToolResultText "hello") = None ↔ is_Some (@None error))
  ∧ ∀ result,
      Some (mcp.NewToolResultText "hello") = Some result →
      mcp.IsError result = false
      ∧ ∃ text, mcp.content result = [mcp.TextContent "text" text].
Proof.
  exact (handler_returns_result_or_error
           Fixture.UUID_String Fixture.foldUnicode Fixture.encodeValue readTool
           (Fixture.read_client (Fixture.file (Some "hello"))) tt
           (Fixture.request "read"
              [("repository", VString "MyRepo"); ("path", VString "/a.txt")])
           _ _ _ eq_refl).
Defined.

Lemma search_answer_is_an_array_witness :
  ∃ rs,
    (search_handler Fixture.encodeValue
       (Fixture.search_client [Fixture.hit "Svc" "/src/a.go" "a.go" "HCC"]) tt
       (Fixture.request "search" [("query", VString "TODO")])).1
    = Done (Some (mcp.NewToolResultText
                    ("[" +:+ String.concat ","
                               (List.map (marshal_map Fixture.encodeValue) rs)
                     +:+ "]")), None).
Proof.
  destruct (search_answer_is_an_array
              Fixture.encodeValue
              (Fixture.search_client
                 [Fixture.hit "Svc" "/src/a.go" "a.go" "HCC"]) tt
              (Fixture.request "search" [("query", VString "TODO")])
              _ _ _ eq_refl) as (query & rs & _ & _ & Hres).
  exists rs. exact (f_equal (fun r => Done (Some r, None)) Hres).
Defined.

Lemma read_listing_error_passes_through_witness :
  (read_handler Fixture.UUID_String Fixture.foldUnicode
     (Fixture.client Fixture.unused (None, Some (errorString "denied"))
        Fixture.unused)
     tt
     (Fixture.request "read"
        [("repository", VString "Svc"); ("path", VString "/a.txt")])).1
  = Done (None,
          Some (wrapError "error getting file content: denied"
                  (errorString "denied"))).
Proof.
  exact (f_equal fst
           (proj2 (read_listing_error_passes_through
                     Fixture.UUID_String Fixture.foldUnicode
                     (Fixture.client Fixture.unused
                        (None, Some (errorString "denied")) Fixture.unused)
                     tt
                     (Fixture.request "read"
                        [("repository", VString "Svc");
                         ("path", VString "/a.txt")])
                     "Svc" "/a.txt" None (errorString "denied")
                     eq_refl eq_refl eq_refl))).
Defined.

Lemma read_fetch_error_passes_through_witness :
  (read_handler Fixture.UUID_String Fixture.foldUnicode
     (Fixture.read_client (None, Some (errorString "not found"))) tt
     (Fixture.request "read"
        [("repository", VString "other"); ("path", VString "/missing.txt")])).1
  = Done (None,
          Some (wrapError "error getting file content: not found"
                  (errorString "not found"))).
Proof.
  refine (proj2 (read_fetch_error_passes_through
                   Fixture.UUID_String Fixture.foldUnicode
                   (Fixture.read_client (None, Some (errorString "not found")))
                   tt
                   (Fixture.request "read"
                      [("repository", VString "other");
                       ("path", VString "/missing.txt")])
                   "other" "/missing.txt"
                   (item_args
                      (Fixture.read_client
                         (None, Some (errorString "not found")))
                      "id-1" "/missing.txt")
                   None (errorString "not found")
                   eq_refl eq_refl _ eq_refl)).
  apply list_elem_of_In. right. left. reflexivity.
Defined.

Lemma read_returns_content_verbatim_witness :
  (read_handler Fixture.UUID_String Fixture.foldUnicode
     (Fixture.read_client (Fixture.file (Some "hello"))) tt
     (Fixture.request "read"
        [("repository", VString "MyRepo"); ("path", VString "/a.txt")])).1
  = Done (Some (mcp.NewToolResultText "hello"), None).
Proof.
  refine (proj2 (read_returns_content_verbatim
                   Fixture.UUID_String Fixture.foldUnicode
                   (Fixture.read_client (Fixture.file (Some "hello"))) tt
                   (Fixture.request "read"
                      [("repository", VString "MyRepo");
                       ("path", VString "/a.txt")])
                   "MyRepo" "/a.txt"
                   (item_args
                      (Fixture.read_client (Fixture.file (Some "hello")))
                      "id-2" "/a.txt")
                   _ "hello" eq_refl eq_refl _ eq_refl eq_refl)).
  apply list_elem_of_In. right. left. reflexivity.
Defined.

Lemma read_ignores_listing_after_first_match_witness :
  find_repo Fixture.foldUnicode Fixture.repos "MyRepo"
  = (Done (Some (Fixture.repo "myrepo" "id-2")), [])
  ∧ upstream_calls
      (getFileContent Fixture.UUID_String Fixture.foldUnicode
         (Fixture.read_client (Fixture.file (Some "hello"))) tt
         "MyRepo" "/a.txt").2
    = [EvGetRepositories
         (repositories_args (Fixture.read_client (Fixture.file (Some "hello"))));
       EvGetItem
         (item_args (Fixture.read_client (Fixture.file (Some "hello")))
                    "id-2" "/a.txt")].
Proof.
  refine (read_ignores_listing_after_first_match
            Fixture.UUID_String Fixture.foldUnicode
            (Fixture.read_client (Fixture.file (Some "hello"))) tt
            "MyRepo" "/a.txt"
            [Fixture.repo "Other" "id-1"] (Fixture.repo "myrepo" "id-2")
            [Fixture.repo "MYREPO" "id-3"] "myrepo" "id-2"
            eq_refl _ eq_refl eq_refl eq_refl).
  constructor; [|constructor]. exists "Other". split; reflexivity.
Defined.

Lemma read_panics_on_nameless_repository_witness :
  getFileContent Fixture.UUID_String Fixture.foldUnicode
    (Fixture.client Fixture.unused
       (Some [Fixture.repo "Other" "id-1";
              {| GitRepository.Id := Some "id-0";
                 GitRepository.Name := None;
                 GitRepository.DefaultBranch := None |};
              Fixture.repo "myrepo" "id-2"], None)
       (Fixture.file (Some "hello")))
    tt "MyRepo" "/a.txt"
  = (Panic,
     [EvGetRepositories
        (repositories_args
           (Fixture.read_client (Fixture.file (Some "hello"))))]).
Proof.
  refine (read_panics_on_nameless_repository
            Fixture.UUID_String Fixture.foldUnicode
            (Fixture.client Fixture.unused
               (Some [Fixture.repo "Other" "id-1";
                      {| GitRepository.Id := Some "id-0";
                         GitRepository.Name := None;
                         GitRepository.DefaultBranch := None |};
                      Fixture.repo "myrepo" "id-2"], None)
               (Fixture.file (Some "hello")))
            tt "MyRepo" "/a.txt"
            [Fixture.repo "Other" "id-1"] _ [Fixture.repo "myrepo" "id-2"]
            eq_refl _ eq_refl).
  constructor; [|constructor]. exists "Other". split; reflexivity.
Defined.

Lemma read_panics_on_nil_answer_witness :
  (getFileContent Fixture.UUID_String Fixture.foldUnicode
     (Fixture.read_client (None, None)) tt "MyRepo" "/a.txt").1
  = Panic.
Proof.
  apply (read_panics_on_nil_answer
           Fixture.UUID_String Fixture.foldUnicode
           (Fixture.read_client (None, None)) tt "MyRepo" "/a.txt").
  right.
  exists (item_args (Fixture.read_client (None, None)) "id-2" "/a.txt").
  split; [|reflexivity].
  apply list_elem_of_In. right. left. reflexivity.
Defined.

Lemma EqualFold_ascii_is_case_insensitive_equality_witness :
  EqualFold Fixture.foldUnicode "myrepo" "MyRepo" = true
  ↔ to_lower "myrepo" = to_lower "MyRepo".
Proof.
  exact (EqualFold_ascii_is_case_insensitive_equality
           Fixture.foldUnicode "myrepo" "MyRepo" eq_refl eq_refl).
Defined.

Lemma startup_token_precedence_witness :
  effective_PAT
    (BootFixture.process None (Fixture.config, None) "env-token")
  = "env-token"
  ∧ ∃ client,
      (NewAzureDevOpsClient
         (BootFixture.process None (Fixture.config, None) "env-token")).1
      = (Some client, None)
      ∧ AzureDevOpsConfig.PAT
          (Config.AzureDevOps (AzureDevOpsClient.config client))
        = "env-token".
Proof.
  split; [reflexivity|]. eexists. split; [reflexivity|].
  exact (proj1 (proj2 (startup_token_precedence
                         (BootFixture.process None (Fixture.config, None)
                            "env-token")
                         _ _ _ eq_refl))).
Defined.

Lemma startup_clients_share_one_connection_witness :
  List.filter is_constructor_event
    (NewAzureDevOpsClient
       (BootFixture.process None (Fixture.config, None) "")).2
  = [BvGitNewClient (NewPatConnection "https://dev.azure.com/your-org" "pat");
     BvSearchNewClient
       (NewPatConnection "https://dev.azure.com/your-org" "pat")].
Proof.
  destruct (startup_clients_share_one_connection
              (BootFixture.process None (Fixture.config, None) "")
              (NewPatConnection "https://dev.azure.com/your-org" "pat"))
    as (_ & _ & [H|[H _]]).
  - left. apply list_elem_of_In. do 6 right. left. reflexivity.
  - discriminate H.
  - exact H.
Defined.

Lemma startup_stops_on_bad_configuration_witness :
  BvGetenv "AZURE_DEVOPS_PAT"
    ∉ (NewAzureDevOpsClient
         (BootFixture.process (Some (errorString "no file"))
            (Fixture.config, None) "env-token")).2.
Proof.
  exact (proj1 (proj2 (startup_stops_on_bad_configuration
                         (BootFixture.process (Some (errorString "no file"))
                            (Fixture.config, None) "env-token")
                         (errorString "no file") (or_introl eq_refl)))).
Defined.

Lemma main_exits_when_startup_fails_witness :
  main (BootFixture.process None (BootFixture.tokenless, None) "")
  = (MainFatal,
     (NewAzureDevOpsClient
        (BootFixture.process None (BootFixture.tokenless, None) "")).2
     ++ [BvLog "Failed to create Azure DevOps client: Azure DevOps PAT is required"]).
Proof.
  exact (proj1 (main_exits_when_startup_fails
                  (BootFixture.process None (BootFixture.tokenless, None) "")
                  (errorString "Azure DevOps PAT is required") eq_refl)).
Defined.

Lemma main_listens_on_configured_address_witness :
  List.filter is_server_event
    (main (BootFixture.process None (Fixture.config, None) "env-token")).2
  = [BvNewMCPServer "Azure DevOps MCP Server" "1.0.0"
       [WithResourceCapabilities true true;
        WithPromptCapabilities true;
        WithToolCapabilities true];
     BvAddTool searchTool; BvAddTool readTool;
     BvNewSSEServer "http://localhost:8080";
     BvStart "localhost:8080"].
Proof.
  refine (proj2 (proj2 (main_listens_on_configured_address
                          (BootFixture.process None (Fixture.config, None)
                             "env-token")
                          "localhost:8080" _))).
  apply list_elem_of_In. do 13 right. left. reflexivity.
Defined.

(** C2.  The listing of a repository named "Other" followed by a
    repository without a name holds no repository whose name equals
    "MyRepo" in any case, yet the read does not fail with "repository not
    found": the scan dereferences the nil name and the call panics right
    after the listing request, with neither an error nor a fetch.  On the
    same listing without the nameless entry the call returns the error. *)
Theorem read_panics_where_no_repository_matches :
  first_match Fixture.foldUnicode "MyRepo"
    [Fixture.repo "Other" "id-1";
     {| GitRepository.Id := Some "id-0";
        GitRepository.Name := None;
        GitRepository.DefaultBranch := None |}]
  = None
  ∧ getFileContent Fixture.UUID_String Fixture.foldUnicode
      (Fixture.client Fixture.unused
         (Some [Fixture.repo "Other" "id-1";
                {| GitRepository.Id := Some "id-0";
                   GitRepository.Name := None;
                   GitRepository.DefaultBranch := None |}], None)
         (Fixture.file (Some "hello")))
      tt "MyRepo" "/a.txt"
    = (Panic,
       [EvGetRepositories
          (repositories_args
             (Fixture.read_client (Fixture.file (Some "hello"))))])
  ∧ getFileContent Fixture.UUID_String Fixture.foldUnicode
      (Fixture.client Fixture.unused
         (Some [Fixture.repo "Other" "id-1"], None)
         (Fixture.file (Some "hello")))
      tt "MyRepo" "/a.txt"
    = (Done ("", Some (NotFound "MyRepo")),
       [EvGetRepositories
          (repositories_args
             (Fixture.read_client (Fixture.file (Some "hello"))));
        EvLog "Repository not found: MyRepo"]).
Proof. repeat split. Qed.
